(** * A/B-test statistics: the test runners, the aggregator and the
      time-breakdown parser

    A shallow embedding of [src/statistical_tests.py] ([run_t_test],
    [run_mann_whitney_test], [analyze_all_metrics], [save_results]) and
    of [load_data] and [parse_time_spent] in [src/data_analysis.py].

    Numbers.  Two arithmetics are used.  The frames, the partition into
    groups, the aggregator and the parser compute with exact reals: a
    metric cell is a finite real or missing (pandas' NaN), and the
    results of numpy computations live in [float], the reals extended
    with the two infinities and NaN, because numpy divides by zero
    without raising.  These definitions carry the statements that do not
    depend on rounding: which rows a runner selects, which keys a result
    has, the scenario whose numbers float64 holds exactly, equalities
    between fields of one computation.  What does depend on the rounding
    or the overflow of float64 (the tests [pooled_std > 0] and
    [group_a.mean() != 0], a result that is NaN or infinite) is stated on
    a second embedding of the runners' bodies, [run_t_test64] and
    [run_mann_whitney_test64], over the binary64 numbers of the standard
    library with the operations of IEEE 754.

    Libraries.  pandas' [mean], [std], [median], [dropna], boolean
    indexing and scipy's [ttest_ind] (Welch) and [mannwhitneyu] are
    modelled by what they compute.  Two special functions stay abstract:
    the survival function of Student's law and the one of the normal
    law; so does [json.loads]. *)

From Stdlib Require Import Floats.
From Stdlib Require Import Reals Lra Lia List String Ascii ZArith Bool.
From Stdlib Require Import Permutation.
Import ListNotations.

Local Open Scope string_scope.
Local Open Scope list_scope.

(** ** Python values *)

(** A numpy float64: finite, infinite or not-a-number. *)
Inductive float : Type :=
| Fin (x : R)
| PInf
| NInf
| NaN.

(** What a result dictionary holds under a key. *)
Inductive value : Type :=
| VStr (s : string)
| VInt (z : Z)
| VFloat (f : float)
| VBool (b : bool).

(** A Python [dict] with string keys, in insertion order. *)
Definition dict : Type := list (string * value).

Definition keys (d : dict) : list string := map fst d.

(** [key in d] *)
Definition contains (d : dict) (key : string) : bool :=
  existsb (String.eqb key) (keys d).

(** [d.get(key)] *)
Fixpoint get (d : dict) (key : string) : option value :=
  match d with
  | [] => None
  | (k, v) :: d' => if String.eqb k key then Some v else get d' key
  end.

Inductive exn : Type :=
| KeyError
| TypeError.

(** A call either returns or raises. *)
Inductive outcome (A : Type) : Type :=
| Returns (a : A)
| Raises (e : exn).
Arguments Returns {A} a.
Arguments Raises {A} e.

Definition bind {A B : Type} (m : outcome A) (k : A -> outcome B) : outcome B :=
  match m with
  | Returns a => k a
  | Raises e => Raises e
  end.

Notation "x <- m ;; k" := (bind m (fun x => k))
  (at level 61, m at next level, right associativity).

(** ** Data frames *)

(** A cell of a table read from CSV: a number, a text, or missing. *)
Inductive cell : Type :=
| Num (x : R)
| Text (s : string)
| NA.

Definition Series : Type := list cell.

(** Columns by name, in table order; all columns have one length. *)
Definition DataFrame : Type := list (string * Series).

(** [df[name]]: the column, [KeyError] when there is none. *)
Fixpoint getitem (df : DataFrame) (name : string) : outcome Series :=
  match df with
  | [] => Raises KeyError
  | (n, s) :: df' => if String.eqb n name then Returns s else getitem df' name
  end.

(** [series == label] *)
Definition eq_label (label : string) (c : cell) : bool :=
  match c with
  | Text s => String.eqb s label
  | _ => false
  end.

(** [series[mask]]: the rows where the mask holds. *)
Fixpoint boolean_index (mask : list bool) (s : Series) : Series :=
  match mask, s with
  | m :: mask', c :: s' =>
      if m then c :: boolean_index mask' s' else boolean_index mask' s'
  | _, _ => []
  end.

Definition isna (c : cell) : bool :=
  match c with
  | NA => true
  | _ => false
  end.

Definition dropna (s : Series) : Series := filter (fun c => negb (isna c)) s.

(** [df[df['Group'] == label][metric].dropna()] *)
Definition group_of (df : DataFrame) (label metric : string) : outcome Series :=
  g <- getitem df "Group" ;;
  col <- getitem df metric ;;
  Returns (dropna (boolean_index (map (eq_label label) g) col)).

(** No cell of the series is a text. *)
Definition no_text (s : Series) : bool :=
  forallb (fun c => match c with Text _ => false | _ => true end) s.

(** The dtype [read_csv] infers is numeric when the column has a row and
    no cell of it is a text; the columns of a table without rows get the
    dtype [object]. *)
Definition is_number_dtype (s : Series) : bool :=
  match s with
  | [] => false
  | _ :: _ => no_text s
  end.

(** The numbers of a series without missing cells; arithmetic on a text
    raises. *)
Fixpoint to_numpy (s : Series) : outcome (list R) :=
  match s with
  | [] => Returns []
  | Num x :: s' => xs <- to_numpy s' ;; Returns (x :: xs)
  | _ :: _ => Raises TypeError
  end.

(** ** Descriptive statistics (pandas) *)

Local Open Scope R_scope.

Definition len {A : Type} (xs : list A) : nat := List.length xs.

Definition sum (xs : list R) : R := fold_right Rplus 0 xs.

(** [Series.mean()], for a series that is not empty, without the
    rounding of float64 ([mean64] below has it). *)
Definition mean (xs : list R) : R := sum xs / INR (len xs).

(** The sample variance ([ddof = 1]), for at least two values, without
    the rounding of float64 ([var64] below has it). *)
Definition var (xs : list R) : R :=
  sum (map (fun x => (x - mean xs) ^ 2) xs) / (INR (len xs) - 1).

(** [Series.std()], for at least two values. *)
Definition std (xs : list R) : R := sqrt (var xs).

Fixpoint insert_sorted (x : R) (l : list R) : list R :=
  match l with
  | [] => [x]
  | y :: l' => if Rle_dec x y then x :: l else y :: insert_sorted x l'
  end.

Definition sort_values (xs : list R) : list R := fold_right insert_sorted [] xs.

(** [Series.median()], for a series that is not empty. *)
Definition median (xs : list R) : R :=
  let s := sort_values xs in
  let n := len s in
  if Nat.even n
  then (nth (Nat.div n 2 - 1)%nat s 0 + nth (Nat.div n 2) s 0) / 2
  else nth (Nat.div n 2) s 0.

(** ** numpy arithmetic that leaves the finite numbers *)

(** [x / y] on finite floats: no exception, an infinity or NaN at zero. *)
Definition fdiv (x y : R) : float :=
  if Req_dec_T y 0
  then (if Req_dec_T x 0 then NaN else if Rlt_dec 0 x then PInf else NInf)
  else Fin (x / y).

(** [f < y]: false on NaN. *)
Definition flt (f : float) (y : R) : bool :=
  match f with
  | Fin x => if Rlt_dec x y then true else false
  | NInf => true
  | PInf | NaN => false
  end.

(** [np.where(np.isnan(f), d, f)] *)
Definition nan_to (d : R) (f : float) : float :=
  match f with
  | NaN => Fin d
  | _ => f
  end.

(** [np.clip(p, 0, 1)] *)
Definition clip01 (p : R) : R := Rmax 0 (Rmin 1 p).

(** ** The two tests (scipy.stats) *)

Section Scipy.

(** [student_sf x nu]: the probability that a Student variable with [nu]
    degrees of freedom exceeds [x]. *)
Variable student_sf : R -> R -> R.

(** [norm_sf z]: the probability that a standard normal variable
    exceeds [z]. *)
Variable norm_sf : R -> R.

(** [_unequal_var_ttest_denom]: the Welch-Satterthwaite degrees of
    freedom (1 where the quotient is NaN) and the standard error. *)
Definition unequal_var_ttest_denom (v1 : R) (n1 : nat) (v2 : R) (n2 : nat)
  : float * R :=
  let vn1 := v1 / INR n1 in
  let vn2 := v2 / INR n2 in
  let df := fdiv ((vn1 + vn2) ^ 2)
                 (vn1 ^ 2 / (INR n1 - 1) + vn2 ^ 2 / (INR n2 - 1)) in
  (nan_to 1 df, sqrt (vn1 + vn2)).

(** The two-sided p-value of a statistic [t] with [df] degrees of
    freedom: twice the upper tail at [|t|]. *)
Definition ttest_pvalue (t df : float) : float :=
  match t, df with
  | NaN, _ => NaN
  | (PInf | NInf), _ => Fin 0
  | Fin x, Fin nu => Fin (2 * student_sf (Rabs x) nu)
  | Fin x, PInf => Fin (2 * norm_sf (Rabs x))
  | Fin x, (NInf | NaN) => NaN
  end.

(** [stats.ttest_ind(a, b, equal_var=False)], two values at least on
    each side: the statistic and the p-value. *)
Definition ttest_ind (a b : list R) : float * float :=
  let '(df, denom) := unequal_var_ttest_denom (var a) (len a) (var b) (len b) in
  let t := fdiv (mean a - mean b) denom in
  (t, ttest_pvalue t df).

(** [rankdata]: the average rank of [v] among [xy]. *)
Definition rank (xy : list R) (v : R) : R :=
  INR (len (filter (fun x => if Rlt_dec x v then true else false) xy))
  + (INR (count_occ Req_dec_T xy v) + 1) / 2.

(** The [k]-element sublists of [l], in order. *)
Fixpoint combinations (k : nat) (l : list nat) : list (list nat) :=
  match k, l with
  | O, _ => [[]]
  | S _, [] => []
  | S k', x :: l' => map (cons x) (combinations k' l') ++ combinations k l'
  end.

(** The exact null law of U: the share of the ways to give [n1] of the
    ranks [1 .. n1 + n2] to the first sample with a statistic of [k] at
    least. *)
Definition mwu_exact_sf (k : R) (n1 n2 : nat) : R :=
  let ways := combinations n1 (seq 1 (n1 + n2)) in
  let u (c : list nat) := INR (list_sum c) - INR n1 * (INR n1 + 1) / 2 in
  INR (len (filter (fun c => if Rle_dec k (u c) then true else false) ways))
  / INR (len ways).

(** [_mwu_choose_method]: exact unless both samples have more than 8
    values or a value repeats. *)
Definition mwu_choose_exact (n1 n2 : nat) (xy : list R) : bool :=
  negb ((8 <? n1)%nat && (8 <? n2)%nat)
  && (len xy =? len (nodup Req_dec_T xy))%nat.

(** [_get_mwu_z]: the normal score of U with the tie and continuity
    corrections. *)
Definition get_mwu_z (U : R) (n1 n2 : nat) (xy : list R) : float :=
  let mu := INR n1 * INR n2 / 2 in
  let n := INR n1 + INR n2 in
  let t := map (fun v => INR (count_occ Req_dec_T xy v)) (nodup Req_dec_T xy) in
  let tie_term := sum (map (fun c => c ^ 3 - c) t) in
  let s := sqrt (INR n1 * INR n2 / 12 * ((n + 1) - tie_term / (n * (n - 1)))) in
  fdiv (U - mu - / 2) s.

(** [stats.mannwhitneyu(x, y, alternative='two-sided')], one value at
    least on each side: the statistic of the first sample and the
    p-value. *)
Definition mannwhitneyu (x y : list R) : R * float :=
  let n1 := len x in
  let n2 := len y in
  let xy := x ++ y in
  let R1 := sum (map (rank xy) x) in
  let U1 := R1 - INR n1 * (INR n1 + 1) / 2 in
  let U2 := INR n1 * INR n2 - U1 in
  let U := Rmax U1 U2 in
  let p :=
    if mwu_choose_exact n1 n2 xy
    then Fin (clip01 (2 * mwu_exact_sf U n1 n2))
    else match get_mwu_z U n1 n2 xy with
         | Fin z => Fin (clip01 (2 * norm_sf z))
         | NInf => Fin (clip01 (2 * 1))
         | PInf => Fin (clip01 (2 * 0))
         | NaN => NaN
         end in
  (U1, p).

(** ** The test runners *)

Definition run_t_test (df : DataFrame) (metric : string) (alpha : R)
  : outcome dict :=
  group_a <- group_of df "A" metric ;;
  group_b <- group_of df "B" metric ;;
  if ((len group_a <? 2) || (len group_b <? 2))%nat
  then Returns [("metric", VStr metric);
                ("test", VStr "t-test");
                ("error", VStr "Insufficient data for t-test")]
  else
    a <- to_numpy group_a ;;
    b <- to_numpy group_b ;;
    let '(t_stat, p_value) := ttest_ind a b in
    let pooled_std :=
      sqrt (((INR (len a) - 1) * std a ^ 2 + (INR (len b) - 1) * std b ^ 2)
            / (INR (len a) + INR (len b) - 2)) in
    let effect_size :=
      if Rlt_dec 0 pooled_std
      then VFloat (Fin (Rabs (mean a - mean b) / pooled_std))
      else VInt 0 in
    Returns [("metric", VStr metric);
             ("test", VStr "t-test");
             ("group_a_mean", VFloat (Fin (mean a)));
             ("group_b_mean", VFloat (Fin (mean b)));
             ("difference", VFloat (Fin (mean b - mean a)));
             ("percent_change",
               VFloat (if Req_dec_T (mean a) 0 then NaN
                       else Fin ((mean b - mean a) / mean a * 100)));
             ("t_statistic", VFloat t_stat);
             ("p_value", VFloat p_value);
             ("effect_size", effect_size);
             ("significant", VBool (flt p_value alpha));
             ("sample_size_a", VInt (Z.of_nat (len group_a)));
             ("sample_size_b", VInt (Z.of_nat (len group_b)))].

Definition run_mann_whitney_test (df : DataFrame) (metric : string) (alpha : R)
  : outcome dict :=
  group_a <- group_of df "A" metric ;;
  group_b <- group_of df "B" metric ;;
  if ((len group_a <? 1) || (len group_b <? 1))%nat
  then Returns [("metric", VStr metric);
                ("test", VStr "mann-whitney");
                ("error", VStr "Insufficient data for Mann-Whitney test")]
  else
    a <- to_numpy group_a ;;
    b <- to_numpy group_b ;;
    let '(u_stat, p_value) := mannwhitneyu a b in
    Returns [("metric", VStr metric);
             ("test", VStr "mann-whitney");
             ("group_a_median", VFloat (Fin (median a)));
             ("group_b_median", VFloat (Fin (median b)));
             ("difference", VFloat (Fin (median b - median a)));
             ("percent_change",
               VFloat (if Req_dec_T (median a) 0 then NaN
                       else Fin ((median b - median a) / median a * 100)));
             ("u_statistic", VFloat (Fin u_stat));
             ("p_value", VFloat p_value);
             ("significant", VBool (flt p_value alpha));
             ("sample_size_a", VInt (Z.of_nat (len group_a)));
             ("sample_size_b", VInt (Z.of_nat (len group_b)))].

(** ** The aggregator *)

(** [df.select_dtypes(include=[np.number]).columns] *)
Definition select_dtypes_number (df : DataFrame) : list string :=
  map fst (filter (fun c => is_number_dtype (snd c)) df).

Record results : Type := mkResults {
  t_test_results : list dict;
  mann_whitney_results : list dict
}.

(** The body of the loop over the metrics: both tests, both appends. *)
Fixpoint analyze_loop (df : DataFrame) (alpha : R) (metrics : list string)
  (acc : results) : outcome results :=
  match metrics with
  | [] => Returns acc
  | metric :: rest =>
      t_test_result <- run_t_test df metric alpha ;;
      mw_test_result <- run_mann_whitney_test df metric alpha ;;
      analyze_loop df alpha rest
        (mkResults (t_test_results acc ++ [t_test_result])
                   (mann_whitney_results acc ++ [mw_test_result]))
  end.

Definition analyze_all_metrics (df : DataFrame) (alpha : R) : outcome results :=
  let numeric_cols := select_dtypes_number df in
  let metrics := filter (fun col => negb (String.eqb col "User_ID")) numeric_cols in
  analyze_loop df alpha metrics (mkResults [] []).

End Scipy.

(** The dictionary [run_t_test] returns for the numbers [a] and [b] of
    the two groups once both have two values. *)
Definition t_test_report (student_sf : R -> R -> R) (norm_sf : R -> R)
  (metric : string) (alpha : R) (a b : list R) : dict :=
  [("metric", VStr metric);
   ("test", VStr "t-test");
   ("group_a_mean", VFloat (Fin (mean a)));
   ("group_b_mean", VFloat (Fin (mean b)));
   ("difference", VFloat (Fin (mean b - mean a)));
   ("percent_change",
     VFloat (if Req_dec_T (mean a) 0 then NaN
             else Fin ((mean b - mean a) / mean a * 100)));
   ("t_statistic", VFloat (fst (ttest_ind student_sf norm_sf a b)));
   ("p_value", VFloat (snd (ttest_ind student_sf norm_sf a b)));
   ("effect_size",
     if Rlt_dec 0 (sqrt (((INR (len a) - 1) * std a ^ 2
                          + (INR (len b) - 1) * std b ^ 2)
                         / (INR (len a) + INR (len b) - 2)))
     then VFloat (Fin (Rabs (mean a - mean b)
                       / sqrt (((INR (len a) - 1) * std a ^ 2
                                + (INR (len b) - 1) * std b ^ 2)
                               / (INR (len a) + INR (len b) - 2))))
     else VInt 0);
   ("significant", VBool (flt (snd (ttest_ind student_sf norm_sf a b)) alpha));
   ("sample_size_a", VInt (Z.of_nat (len a)));
   ("sample_size_b", VInt (Z.of_nat (len b)))].

(** The dictionary [run_mann_whitney_test] returns for the numbers [a]
    and [b] of the two groups once both have a value. *)
Definition mann_whitney_report (norm_sf : R -> R)
  (metric : string) (alpha : R) (a b : list R) : dict :=
  [("metric", VStr metric);
   ("test", VStr "mann-whitney");
   ("group_a_median", VFloat (Fin (median a)));
   ("group_b_median", VFloat (Fin (median b)));
   ("difference", VFloat (Fin (median b - median a)));
   ("percent_change",
     VFloat (if Req_dec_T (median a) 0 then NaN
             else Fin ((median b - median a) / median a * 100)));
   ("u_statistic", VFloat (Fin (fst (mannwhitneyu norm_sf a b))));
   ("p_value", VFloat (snd (mannwhitneyu norm_sf a b)));
   ("significant", VBool (flt (snd (mannwhitneyu norm_sf a b)) alpha));
   ("sample_size_a", VInt (Z.of_nat (len a)));
   ("sample_size_b", VInt (Z.of_nat (len b)))].

(** ** The runners in binary64

    The definitions above compute with exact reals.  What the runners
    return at a test on a float ([pooled_std > 0], [group_a.mean() != 0])
    and where they return NaN or an infinity depends on the rounding and
    the overflow of float64, so here the body of each runner, from the
    size check on, is written over binary64 numbers with the operations
    of IEEE 754.  The inputs are the values of [group_a] and [group_b],
    the two series lines 27-28 and 76-77 select (no NaN is among them:
    [dropna] removed it).  The reductions of pandas, numpy and scipy are
    the fields of a [library]: they are fixed by the order in which the
    library adds the numbers, which the runners do not choose. *)

Definition float64 : Type := PrimFloat.float.

(** What a result dictionary holds under a key, its floats in binary64. *)
Inductive scalar : Type :=
| SStr (s : string)
| SInt (z : Z)
| SFloat (x : float64)
| SBool (b : bool).

Definition report : Type := list (string * scalar).

(** [d.get(key)] *)
Fixpoint lookup (d : report) (key : string) : option scalar :=
  match d with
  | [] => None
  | (k, v) :: d' => if String.eqb k key then Some v else lookup d' key
  end.

(** [float(n)] for a length or a difference of lengths. *)
Definition of_int (z : Z) : float64 :=
  if (z <? 0)%Z
  then PrimFloat.opp (PrimFloat.of_uint63 (Uint63.of_Z (- z)))
  else PrimFloat.of_uint63 (Uint63.of_Z z).

(** The library functions the runners call, on series of float64
    without missing values:
    - [pd_mean], [pd_std], [pd_median]: [Series.mean()], [Series.std()]
      and [Series.median()];
    - [pow2]: [x ** 2] on a numpy float64 (line 43);
    - [np_mean], [np_var], [np_pow2]: [np.mean], [np.var(ddof=1)] and
      [x ** 2] inside [ttest_ind];
    - [t_pvalue t nu]: the two-sided p-value [ttest_ind] gives the
      statistic [t] under Student's law with [nu] degrees of freedom;
    - [mannwhitneyu64]: [stats.mannwhitneyu(x, y, alternative='two-sided')],
      the statistic and the p-value. *)
Record library : Type := mkLibrary {
  pd_mean : list float64 -> float64;
  pd_std : list float64 -> float64;
  pd_median : list float64 -> float64;
  pow2 : float64 -> float64;
  np_mean : list float64 -> float64;
  np_var : list float64 -> float64;
  np_pow2 : float64 -> float64;
  t_pvalue : float64 -> float64 -> float64;
  mannwhitneyu64 : list float64 -> list float64 -> float64 * float64
}.

Local Open Scope float_scope.

(** [_unequal_var_ttest_denom] in binary64: the degrees of freedom
    ([np.where(np.isnan(df), 1, df)]) and the standard error. *)
Definition unequal_var_ttest_denom64 (L : library)
  (v1 : float64) (n1 : nat) (v2 : float64) (n2 : nat) : float64 * float64 :=
  let vn1 := v1 / of_int (Z.of_nat n1) in
  let vn2 := v2 / of_int (Z.of_nat n2) in
  let df := np_pow2 L (vn1 + vn2)
            / (np_pow2 L vn1 / of_int (Z.of_nat n1 - 1)
               + np_pow2 L vn2 / of_int (Z.of_nat n2 - 1)) in
  (if PrimFloat.is_nan df then 1 else df, PrimFloat.sqrt (vn1 + vn2)).

(** [stats.ttest_ind(a, b, equal_var=False)] in binary64;
    [np.divide(d, denom)] is the division of IEEE 754. *)
Definition ttest_ind64 (L : library) (a b : list float64) : float64 * float64 :=
  let '(df, denom) :=
    unequal_var_ttest_denom64 L (np_var L a) (len a) (np_var L b) (len b) in
  let d := np_mean L a - np_mean L b in
  let t := d / denom in
  (t, t_pvalue L t df).

(** [run_t_test] from line 31 on. *)
Definition run_t_test64 (L : library) (metric : string) (alpha : float64)
  (group_a group_b : list float64) : report :=
  if ((len group_a <? 2) || (len group_b <? 2))%nat
  then [("metric", SStr metric);
        ("test", SStr "t-test");
        ("error", SStr "Insufficient data for t-test")]
  else
    let '(t_stat, p_value) := ttest_ind64 L group_a group_b in
    let pooled_std :=
      PrimFloat.sqrt
        ((of_int (Z.of_nat (len group_a) - 1) * pow2 L (pd_std L group_a)
          + of_int (Z.of_nat (len group_b) - 1) * pow2 L (pd_std L group_b))
         / of_int (Z.of_nat (len group_a) + Z.of_nat (len group_b) - 2)) in
    let effect_size :=
      if 0 <? pooled_std
      then SFloat (PrimFloat.abs (pd_mean L group_a - pd_mean L group_b) / pooled_std)
      else SInt 0 in
    [("metric", SStr metric);
     ("test", SStr "t-test");
     ("group_a_mean", SFloat (pd_mean L group_a));
     ("group_b_mean", SFloat (pd_mean L group_b));
     ("difference", SFloat (pd_mean L group_b - pd_mean L group_a));
     ("percent_change",
       SFloat (if negb (pd_mean L group_a =? 0)
               then (pd_mean L group_b - pd_mean L group_a) / pd_mean L group_a * 100
               else PrimFloat.nan));
     ("t_statistic", SFloat t_stat);
     ("p_value", SFloat p_value);
     ("effect_size", effect_size);
     ("significant", SBool (p_value <? alpha));
     ("sample_size_a", SInt (Z.of_nat (len group_a)));
     ("sample_size_b", SInt (Z.of_nat (len group_b)))].


(** *** Vocabulary of the statements in binary64 *)


(** The percent change of lines 54 and 96-97 from the reference [x] to
    [y], each operation rounded. *)
Definition percent_change64 (x y : float64) : float64 :=
  if negb (x =? 0) then (y - x) / x * 100 else PrimFloat.nan.





(** *** A library for short series

    numpy adds fewer than eight numbers from left to right, and pandas
    and numpy compute the mean as the sum over the count and the
    variance as the sum of the squared deviations from that mean over
    [n - 1]. *)

Definition sum64 (xs : list float64) : float64 := fold_left PrimFloat.add xs 0.

Definition mean64 (xs : list float64) : float64 :=
  sum64 xs / of_int (Z.of_nat (len xs)).

Definition var64 (xs : list float64) : float64 :=
  let avg := mean64 xs in
  sum64 (map (fun x => (x - avg) * (x - avg)) xs) / of_int (Z.of_nat (len xs) - 1).

Definition std64 (xs : list float64) : float64 := PrimFloat.sqrt (var64 xs).

Fixpoint insert64 (x : float64) (l : list float64) : list float64 :=
  match l with
  | [] => [x]
  | y :: l' => if x <=? y then x :: l else y :: insert64 x l'
  end.

Definition median64 (xs : list float64) : float64 :=
  let s := fold_right insert64 [] xs in
  let n := len s in
  if Nat.even n
  then (nth (Nat.div n 2 - 1)%nat s PrimFloat.nan + nth (Nat.div n 2) s PrimFloat.nan) / 2
  else nth (Nat.div n 2) s PrimFloat.nan.

(** The p-value where no special function is needed: NaN for a
    statistic that is NaN, 1 for a statistic of zero under finitely many
    degrees of freedom; the value elsewhere plays no part. *)
Definition t_pvalue_at_rest (t nu : float64) : float64 :=
  if PrimFloat.is_nan t then PrimFloat.nan
  else if (t =? 0) && (0 <? nu) && PrimFloat.is_finite nu then 1
  else PrimFloat.nan.

(** The rank test plays no part in the statements on short series. *)
Definition mannwhitneyu_unused (x y : list float64) : float64 * float64 :=
  (PrimFloat.nan, PrimFloat.nan).

(** 0.05, 0.1, 0.2 and 0.3 as [float] reads them. *)
Definition five_percent : float64 := 0x1.999999999999ap-5.
Definition tenth : float64 := 0x1.999999999999ap-4.
Definition fifth : float64 := 0x1.999999999999ap-3.
Definition three_tenths : float64 := 0x1.3333333333333p-2.


Definition short_series : library :=
  {| pd_mean := mean64; pd_std := std64; pd_median := median64;
     pow2 := fun x => x * x;
     np_mean := mean64; np_var := var64; np_pow2 := fun x => x * x;
     t_pvalue := t_pvalue_at_rest;
     mannwhitneyu64 := mannwhitneyu_unused |}.

Local Close Scope float_scope.

(** ** The derived total of the time breakdown (data_analysis.py) *)

Local Open Scope string_scope.

(** What [json.loads] can return; a float is finite (the literals
    [NaN] and [Infinity], which [json.loads] also reads, are outside the
    model). *)
#[local] Unset Elimination Schemes.
Inductive pyobj : Type :=
| PNone
| PBool (b : bool)
| PInt (z : Z)
| PFloat (x : R)
| PStr (s : string)
| PList (l : list pyobj)
| PDict (items : list (string * pyobj)).
#[local] Set Elimination Schemes.

(** A Python number: [sum] starts from the integer 0 and turns into a
    float at the first float. *)
Inductive number : Type :=
| NInt (z : Z)
| NFloat (x : R).

(** What [parse_time_spent] can meet: the two exceptions it catches and
    the one it lets through. *)
Inductive parse_exn : Type :=
| JSONDecodeError
| AttributeError
| SumTypeError.

Definition attempt (A : Type) : Type := (A + parse_exn)%type.

Definition try_bind {A B : Type} (m : attempt A) (k : A -> attempt B) : attempt B :=
  match m with
  | inl a => k a
  | inr e => inr e
  end.

Notation "x <~ m ;; k" := (try_bind m (fun x => k))
  (at level 61, m at next level, right associativity).

(** [s.replace(old, new)] for one-character [old] and [new]. *)
Fixpoint replace (old new : ascii) (s : string) : string :=
  match s with
  | EmptyString => EmptyString
  | String c s' => String (if Ascii.eqb c old then new else c) (replace old new s')
  end.

Definition single_quote : ascii := "'"%char.
Definition double_quote : ascii := ascii_of_nat 34.

(** [acc + v]: defined between numbers (a bool counts as an integer). *)
Definition py_add (acc : number) (v : pyobj) : attempt number :=
  match acc, v with
  | NInt a, PInt z => inl (NInt (a + z))
  | NInt a, PBool b => inl (NInt (a + Z.b2z b))
  | NInt a, PFloat x => inl (NFloat (IZR a + x))
  | NFloat a, PInt z => inl (NFloat (a + IZR z))
  | NFloat a, PBool b => inl (NFloat (a + IZR (Z.b2z b)))
  | NFloat a, PFloat x => inl (NFloat (a + x))
  | _, _ => inr SumTypeError
  end.

(** [sum(vs)] continued from [acc]. *)
Fixpoint py_sum (acc : number) (vs : list pyobj) : attempt number :=
  match vs with
  | [] => inl acc
  | v :: vs' => acc' <~ py_add acc v ;; py_sum acc' vs'
  end.

(** [obj.values()]: only a dict has the method. *)
Definition values (obj : pyobj) : attempt (list pyobj) :=
  match obj with
  | PDict items => inl (map snd items)
  | _ => inr AttributeError
  end.

Definition value_of_number (n : number) : value :=
  match n with
  | NInt z => VInt z
  | NFloat x => VFloat (Fin x)
  end.

(** The cell a value becomes in a column; NaN is the missing cell (an
    infinite total is outside the model of a cell). *)
Definition cell_of_value (v : value) : cell :=
  match v with
  | VInt z => Num (IZR z)
  | VFloat (Fin x) => Num x
  | VBool b => Num (IZR (Z.b2z b))
  | VStr s => Text s
  | VFloat _ => NA
  end.

Section Json.

(** [json.loads]: the decoded object, [None] for a [JSONDecodeError]. *)
Variable json_loads : string -> option pyobj.

(** The body of the [try]. *)
Definition parse_time_spent_try (time_str : cell) : attempt value :=
  replaced <~ match time_str with
              | Text s => inl (replace single_quote double_quote s)
              | _ => inr AttributeError
              end ;;
  time_dict <~ match json_loads replaced with
               | Some obj => inl obj
               | None => inr JSONDecodeError
               end ;;
  vs <~ values time_dict ;;
  total <~ py_sum (NInt 0) vs ;;
  inl (value_of_number total).

(** [parse_time_spent]: the total, NaN on the two caught exceptions. *)
Definition parse_time_spent (time_str : cell) : outcome value :=
  match parse_time_spent_try time_str with
  | inl v => Returns v
  | inr JSONDecodeError | inr AttributeError => Returns (VFloat NaN)
  | inr SumTypeError => Raises TypeError
  end.

(** [series.apply(f)] *)
Fixpoint apply (f : cell -> outcome value) (s : Series) : outcome Series :=
  match s with
  | [] => Returns []
  | c :: s' =>
      v <- f c ;;
      rest <- apply f s' ;;
      Returns (cell_of_value v :: rest)
  end.

(** [df[name] = s]: in place when the column exists, else a new last
    column. *)
Fixpoint setitem (df : DataFrame) (name : string) (s : Series) : DataFrame :=
  match df with
  | [] => [(name, s)]
  | (n, c) :: df' =>
      if String.eqb n name then (n, s) :: df' else (n, c) :: setitem df' name s
  end.

(** The first step of [load_data], which derives [Total_Time_Spent]
    (lines 38-39); [load_data] below goes on with the columns of the
    sections. *)
Definition add_total_time_spent (df : DataFrame) : outcome DataFrame :=
  col <- getitem df "Time_Spent" ;;
  total <- apply parse_time_spent col ;;
  Returns (setitem df "Total_Time_Spent" total).

End Json.

(** ** Vocabulary of the statements *)

(** The numbers of a series, missing cells and texts left out. *)
Definition numbers (s : Series) : list R :=
  flat_map (fun c => match c with Num x => [x] | _ => [] end) s.

(** The observations of [label] in the column [col], given the column
    [g] of group labels. *)
Definition sample (g col : Series) (label : string) : list R :=
  numbers (boolean_index (map (eq_label label) g) col).

Definition t_test_error (metric : string) : dict :=
  [("metric", VStr metric);
   ("test", VStr "t-test");
   ("error", VStr "Insufficient data for t-test")].

Definition mann_whitney_error (metric : string) : dict :=
  [("metric", VStr metric);
   ("test", VStr "mann-whitney");
   ("error", VStr "Insufficient data for Mann-Whitney test")].

(** The rows of [label] with a value in the column, as both runners
    select them. *)
Definition group_rows (g col : Series) (label : string) : Series :=
  dropna (boolean_index (map (eq_label label) g) col).

(** The pooled standard deviation in the words of the specification:
    the root of the sample variances weighted by [n - 1] over
    [n_A + n_B - 2]. *)
Definition pooled_std_spec (a b : list R) : R :=
  sqrt (((INR (len a) - 1) * var a + (INR (len b) - 1) * var b)
        / (INR (len a) + INR (len b) - 2)).

(** The pooled standard deviation as [run_t_test] writes it. *)
Definition pooled_std_code (a b : list R) : R :=
  sqrt (((INR (len a) - 1) * std a ^ 2 + (INR (len b) - 1) * std b ^ 2)
        / (INR (len a) + INR (len b) - 2)).

(** The percent change of [y] against the reference [x]. *)
Definition percent_change (x y : R) : float :=
  if Req_dec_T x 0 then NaN else Fin ((y - x) / x * 100).

(** The metrics in the words of the specification: the names of the
    numeric columns other than the identifier, in table order. *)
Definition expected_metrics (df : DataFrame) : list string :=
  map fst
    (filter (fun c => is_number_dtype (snd c) && negb (String.eqb (fst c) "User_ID"))
       df).

(** [d['metric']] *)
Definition metric_of (d : dict) : option value := get d "metric".

(** [result[key]] of a call that returned a dictionary. *)
Definition field (o : outcome dict) (key : string) : option value :=
  match o with
  | Returns d => get d key
  | Raises _ => None
  end.

(** Relabelling: the rows of A become the rows of B and conversely. *)
Definition swap_label (c : cell) : cell :=
  match c with
  | Text s =>
      if String.eqb s "A" then Text "B"
      else if String.eqb s "B" then Text "A"
      else c
  | _ => c
  end.

Definition swap_groups (df : DataFrame) : DataFrame :=
  map (fun c => if String.eqb (fst c) "Group"
                then (fst c, map swap_label (snd c))
                else c) df.

(** A Python number or bool, which [sum] accepts. *)
Definition is_number_obj (v : pyobj) : bool :=
  match v with
  | PInt _ | PFloat _ | PBool _ => true
  | _ => false
  end.

(** The real a Python number stands for ([True] is 1). *)
Definition real_of_obj (v : pyobj) : R :=
  match v with
  | PInt z => IZR z
  | PFloat x => x
  | PBool b => IZR (Z.b2z b)
  | _ => 0
  end.

Definition real_of_number (n : number) : R :=
  match n with
  | NInt z => IZR z
  | NFloat x => x
  end.

(** The list without its element at position [i]. *)
Fixpoint remove_at {A : Type} (i : nat) (l : list A) : list A :=
  match l with
  | [] => []
  | x :: l' =>
      match i with
      | O => l'
      | S i' => x :: remove_at i' l'
      end
  end.

(** The frame without its row [i]. *)
Definition drop_row (i : nat) (df : DataFrame) : DataFrame :=
  map (fun c => (fst c, remove_at i (snd c))) df.

(** *** Instances and inputs for the concrete statements *)

(** Student's survival function at two degrees of freedom, where it has
    the closed form [1/2 - x / (2 sqrt (2 + x^2))]; the concrete
    statements only consult it at two degrees of freedom or at 0, where
    its value is 1/2 for every law. *)
Definition student_sf_two (x nu : R) : R := / 2 - x / (2 * sqrt (2 + x ^ 2)).

(** A stand-in for the normal survival function, its value at 0, for
    the concrete statements, none of which reaches the normal
    approximation. *)
Definition norm_sf_at_zero (z : R) : R := / 2.

(** The four-row scenario: A has 10 and 12, B has 20 and 22. *)
Definition scenario_frame : DataFrame :=
  [("Group", [Text "A"; Text "A"; Text "B"; Text "B"]);
   ("Score", [Num 10; Num 12; Num 20; Num 22])].


(** A table read from a CSV file that has its header line only. *)
Definition header_only_frame : DataFrame :=
  [("User_ID", []); ("Group", []); ("Score", [])].

(** Group A has one value, group B two, and a second column is a
    text. *)
Definition lone_frame : DataFrame :=
  [("User_ID", [Num 1; Num 2; Num 3]);
   ("Group", [Text "A"; Text "B"; Text "B"]);
   ("Score", [Num 4; Num 6; Num 8]);
   ("Device", [Text "phone"; Text "laptop"; NA])].

(** The text of a breakdown as [json.loads] receives it: written here
    with single quotes, as the CSV has it. *)
Definition json_text (s : string) : string :=
  replace single_quote double_quote s.

(** [json.loads] on four texts (an object of two durations, the empty
    object, the empty array, a text that is no JSON); what it does on
    other texts plays no part. *)
Definition sample_json_loads (s : string) : option pyobj :=
  if String.eqb s (json_text "{'data_upload': 3, 'data_cleaning': 4}")
  then Some (PDict [("data_upload", PInt 3); ("data_cleaning", PInt 4)])
  else if String.eqb s "{}" then Some (PDict [])
  else if String.eqb s "[]" then Some (PList [])
  else None.

(** [json.loads] on one more text, an object whose value is a text. *)
Definition labelled_json_loads (s : string) : option pyobj :=
  if String.eqb s (json_text "{'data_upload': 'long'}")
  then Some (PDict [("data_upload", PStr "long")])
  else sample_json_loads s.

(** Rows with a breakdown, an empty breakdown, a missing one and one
    that is no JSON; the metric of the third row is missing. *)
Definition breakdown_frame : DataFrame :=
  [("Group", [Text "A"; Text "A"; Text "A"; Text "B"; Text "B"]);
   ("Score", [Num 10; Num 12; NA; Num 20; Num 22]);
   ("Time_Spent", [Text "{'data_upload': 3, 'data_cleaning': 4}";
                   Text "{}"; NA; Text "oops"; Text "{}"])].

(** ** Saving the results (statistical_tests.py, [save_results]) *)

(** A numpy array: a scalar (zero dimensions) or a sequence of arrays
    along its first axis. *)
#[local] Unset Elimination Schemes.
Inductive ndarray : Type :=
| NdInt (z : Z)
| NdFloat (f : float)
| NdBool (b : bool)
| NdAxis (items : list ndarray).

(** The objects [convert_np] meets: containers, numpy scalars and
    arrays, and native Python values.  A tuple stands for every
    container that is no [dict] and no [list]; [ONpInt], [ONpFloat] and
    [ONpBool] are the numpy scalars of the types listed in the
    [isinstance] tests (the integers, [float16] to [float64], [bool_]),
    and [ONpOther] is a numpy scalar of any other type ([complex128],
    [longdouble], [datetime64], ...), named by its type. *)
Inductive obj : Type :=
| ODict (items : list (string * obj))
| OList (items : list obj)
| OTuple (items : list obj)
| ONpInt (z : Z)
| ONpFloat (f : float)
| ONdarray (a : ndarray)
| ONpBool (b : bool)
| ONpOther (kind : string)
| OInt (z : Z)
| OFloat (f : float)
| OBool (b : bool)
| OStr (s : string)
| ONone.
#[local] Set Elimination Schemes.

(** [a.tolist()]: nested lists of native scalars. *)
Fixpoint tolist (a : ndarray) : obj :=
  match a with
  | NdInt z => OInt z
  | NdFloat f => OFloat f
  | NdBool b => OBool b
  | NdAxis items => OList (map tolist items)
  end.

(** [convert_np], the helper of [save_results] (with numpy 1.x, where
    [np.float_] exists). *)
Fixpoint convert_np (o : obj) : obj :=
  match o with
  | ODict items => ODict (map (fun kv => let '(k, v) := kv in (k, convert_np v)) items)
  | OList items => OList (map convert_np items)
  | ONpInt z => OInt z
  | ONpFloat f => OFloat f
  | ONdarray a => tolist a
  | ONpBool b => OBool b
  | _ => o
  end.

(** No numpy scalar or array anywhere in the object. *)
Fixpoint native (o : obj) : bool :=
  match o with
  | ODict items => forallb (fun kv => let '(_, v) := kv in native v) items
  | OList items => forallb native items
  | OTuple items => forallb native items
  | ONpInt _ | ONpFloat _ | ONdarray _ | ONpBool _ | ONpOther _ => false
  | _ => true
  end.

(** What [convert_np] converts in full: no tuple and no numpy scalar of
    a type outside its [isinstance] tests anywhere in the object. *)
Fixpoint convertible (o : obj) : bool :=
  match o with
  | ODict items => forallb (fun kv => let '(_, v) := kv in convertible v) items
  | OList items => forallb convertible items
  | OTuple _ | ONpOther _ => false
  | _ => true
  end.

(** ** Listing the significant findings (statistical_tests.py [main],
       analyze_ab_test.py [run_statistical_tests]) *)

(** The truth value of a Python value. *)
Definition truthy (v : value) : bool :=
  match v with
  | VBool b => b
  | VInt z => negb (Z.eqb z 0)
  | VFloat (Fin x) => if Req_dec_T x 0 then false else true
  | VFloat _ => true
  | VStr s => negb (String.eqb s "")
  end.

(** ['significant' in r and r['significant']] *)
Definition is_significant (r : dict) : bool :=
  contains r "significant"
  && match get r "significant" with
     | Some v => truthy v
     | None => false
     end.

(** [[r for r in results if 'significant' in r and r['significant']]] *)
Definition significant_tests (rs : list dict) : list dict :=
  filter is_significant rs.

(** [f > y]: false on NaN. *)
Definition fgt (f : float) (y : R) : bool :=
  match f with
  | Fin x => if Rlt_dec y x then true else false
  | PInf => true
  | NInf | NaN => false
  end.

(** [c.lower()] for an ASCII character. *)
Definition ascii_lower (c : ascii) : ascii :=
  let n := nat_of_ascii c in
  if ((65 <=? n) && (n <=? 90))%nat then ascii_of_nat (n + 32) else c.

(** [s.lower()] for an ASCII text. *)
Fixpoint lower (s : string) : string :=
  match s with
  | EmptyString => EmptyString
  | String c s' => String (ascii_lower c) (lower s')
  end.

(** [needle in hay] *)
Fixpoint str_in (needle hay : string) : bool :=
  if String.prefix needle hay then true
  else match hay with
       | EmptyString => false
       | String _ hay' => str_in needle hay'
       end.

(** ["higher" if change > 0 else "lower"] *)
Definition direction (change : float) : string :=
  if fgt change 0 then "higher" else "lower".

(** The reading of a change in [run_statistical_tests]; [metric] is the
    name with its underscores replaced by spaces. *)
Definition interpretation (metric : string) (change : float) : string :=
  if str_in "exit" (lower metric) || str_in "error" (lower metric)
     || str_in "latency" (lower metric)
  then (if flt change 0 then "better" else "worse")
  else (if fgt change 0 then "better" else "worse").

(** Group A has -1 and 1 (mean 0), group B has 9 and 11. *)
Definition zero_baseline_frame : DataFrame :=
  [("Group", [Text "A"; Text "A"; Text "B"; Text "B"]);
   ("Early_Exit_Rate", [Num (-1); Num 1; Num 9; Num 11])].

(** What [run_statistical_tests] prints about a finding: the metric
    with spaces, the direction and the reading of the change.  [None]
    stands for an entry without the two keys or with values of other
    types, which the runners never return. *)
Definition finding (result : dict) : option (string * string * string) :=
  match get result "metric", get result "percent_change" with
  | Some (VStr m), Some (VFloat change) =>
      let metric := replace "_"%char " "%char m in
      Some (metric, direction change, interpretation metric change)
  | _, _ => None
  end.

(** ** The grid of subplots (visualization.py,
       [create_metrics_overview]) *)

(** The grid, or the exception the division raises. *)
Inductive layout : Type :=
| Layout (n_rows n_cols : nat)
| ZeroDivisionError.

(** [int(np.ceil(np.sqrt(n)))], exact for any number of metrics a
    table can hold. *)
Definition ceil_sqrt (n : nat) : nat :=
  if (Nat.sqrt n * Nat.sqrt n =? n)%nat then Nat.sqrt n else S (Nat.sqrt n).

(** [int(np.ceil(n / c))] for a positive [c]. *)
Definition ceil_div (n c : nat) : nat := ((n + c - 1) / c)%nat.

(** [n_cols] and [n_rows] for [n_metrics] metrics; Python's [/] raises
    on the integer 0. *)
Definition grid_dimensions (n_metrics : nat) : layout :=
  let n_cols := ceil_sqrt n_metrics in
  if (n_cols =? 0)%nat then ZeroDivisionError
  else Layout (ceil_div n_metrics n_cols) n_cols.

(** [(i // n_cols + 1, i % n_cols + 1)]: the row and the column of the
    [i]-th metric. *)
Definition subplot_position (n_cols i : nat) : nat * nat :=
  ((i / n_cols + 1)%nat, (i mod n_cols + 1)%nat).

(** ** The percent change of the chart and the table (visualization.py,
       [create_statistical_significance_table] and
       [create_significant_metrics_chart]) *)

(** The change of the mean of B against the mean of A as the two
    figures compute it: relative to [abs(group_a_mean)], and the integer
    0 at a zero mean.  The means of a result without error are
    finite. *)
Definition figure_pct_change (group_a_mean group_b_mean : R) : value :=
  if Req_dec_T group_a_mean 0 then VInt 0
  else VFloat (Fin ((group_b_mean - group_a_mean) / Rabs group_a_mean * 100)).

(** ** The rows of the report table (update_report_tables.py,
       [update_results_table]; analyze_ab_test.py,
       [update_final_report]) *)

Definition key_metrics : list string :=
  ["Button_Click_Rate"; "Task_Completion_Rate"; "Plot_Interactions";
   "Early_Exit_Rate"; "Total_Time_Spent"].

(** [v == metric] for a text [metric]. *)
Definition eq_str (v : value) (metric : string) : bool :=
  match v with
  | VStr s => String.eqb s metric
  | _ => false
  end.

(** [next((r for r in t_test_results if r['metric'] == metric), None)]:
    the first result of the metric; a result without the key met on the
    way raises. *)
Fixpoint find_result (t_test_results : list dict) (metric : string)
  : outcome (option dict) :=
  match t_test_results with
  | [] => Returns None
  | r :: rest =>
      match get r "metric" with
      | None => Raises KeyError
      | Some v => if eq_str v metric then Returns (Some r) else find_result rest metric
      end
  end.

(** [d.get(key, default)] *)
Definition get_default (d : dict) (key : string) (default : value) : value :=
  match get d key with
  | Some v => v
  | None => default
  end.

(** The number behind a value that is an [int] or a [float] (a bool is
    an [int]). *)
Definition as_number (v : value) : option float :=
  match v with
  | VFloat f => Some f
  | VInt z => Some (Fin (IZR z))
  | VBool b => Some (Fin (IZR (Z.b2z b)))
  | VStr _ => None
  end.

Section ReportTable.

(** [format_fixed n x] is [f"{x:.nf}"]. *)
Variable format_fixed : nat -> float -> string.

(** A cell of the row: a number with [digits] decimals, a text as it
    is. *)
Definition format_cell (digits : nat) (v : value) : string :=
  match as_number v, v with
  | Some f, _ => format_fixed digits f
  | None, VStr s => s
  | None, _ => ""
  end.

(** The percent cell: a plus sign before a positive number, and a
    percent sign after a number. *)
Definition format_pct (v : value) : string :=
  match as_number v, v with
  | Some f, _ => (if fgt f 0 then "+" else "") ++ format_fixed 2 f ++ "%"
  | None, VStr s => s
  | None, _ => ""
  end.

Definition table_row (metric : string) (result : dict) : string :=
  let group_a_mean := get_default result "group_a_mean" (VStr "N/A") in
  let group_b_mean := get_default result "group_b_mean" (VStr "N/A") in
  let pct_change := get_default result "percent_change" (VStr "N/A") in
  let p_value := get_default result "p_value" (VStr "N/A") in
  let significant := get_default result "significant" (VBool false) in
  let sig_text := if truthy significant then "Yes" else "No" in
  "| " ++ metric ++ " | " ++ format_cell 2 group_a_mean
  ++ " | " ++ format_cell 2 group_b_mean
  ++ " | " ++ format_pct pct_change
  ++ " | " ++ format_cell 4 p_value
  ++ " | " ++ sig_text ++ " |".

(** [result and 'error' not in result] *)
Definition has_verdict (result : option dict) : bool :=
  match result with
  | None => false
  | Some [] => false
  | Some r => negb (contains r "error")
  end.

(** The loop over the key metrics that prepares the rows. *)
Fixpoint table_rows_of (t_test_results : list dict) (metrics : list string)
  : outcome (list string) :=
  match metrics with
  | [] => Returns []
  | metric :: rest =>
      result <- find_result t_test_results metric ;;
      rows <- table_rows_of t_test_results rest ;;
      Returns (match result with
               | Some r => if has_verdict result then table_row metric r :: rows
                           else rows
               | None => rows
               end)
  end.

Definition table_rows (t_test_results : list dict) : outcome (list string) :=
  table_rows_of t_test_results key_metrics.

End ReportTable.

(** The two samples a metric is tested on, when the frame has it as a
    numeric column with two values at least in both groups. *)
Definition tested_samples (df : DataFrame) (metric : string)
  : option (list R * list R) :=
  match getitem df "Group", getitem df metric with
  | Returns g, Returns col =>
      if is_number_dtype col
         && (2 <=? len (sample g col "A"))%nat
         && (2 <=? len (sample g col "B"))%nat
      then Some (sample g col "A", sample g col "B")
      else None
  | _, _ => None
  end.

(** A formatter for the concrete statements: it writes the number of
    decimals asked for and no digits. *)
Definition format_blank (digits : nat) (f : float) : string :=
  if (digits =? 2)%nat then "#.##" else "#.####".

(** A frame with one key metric tested, one short of data, one a text
    column, and a numeric column that is no key metric. *)
Definition report_frame : DataFrame :=
  [("User_ID", [Num 1; Num 2; Num 3; Num 4]);
   ("Group", [Text "A"; Text "A"; Text "B"; Text "B"]);
   ("Early_Exit_Rate", [Num 10; Num 12; Num 20; Num 22]);
   ("Plot_Interactions", [Num 3; NA; Num 5; Num 7]);
   ("Button_Click_Rate", [Text "low"; Text "low"; Text "high"; Text "high"]);
   ("Latency", [Num 1; Num 2; Num 3; Num 4])].

(** ** Loading the data (data_analysis.py, [load_data] once the CSV is
       read) *)

Definition sections : list string :=
  ["data_upload"; "data_cleaning"; "feature_engineering"; "exploratory_analysis"].

(** [d.get(key, np.nan)] on the items of a dictionary (its keys are
    distinct): [None] stands for the default NaN. *)
Fixpoint dict_get (items : list (string * pyobj)) (key : string) : option pyobj :=
  match items with
  | [] => None
  | (k, v) :: items' => if String.eqb k key then Some v else dict_get items' key
  end.

(** What [load_data] can raise. *)
Inductive load_exn : Type :=
| LoadKeyError
| LoadTypeError
| LoadJSONDecodeError
| LoadAttributeError.

(** What [load_data] returns: the frame with [Total_Time_Spent], and the
    four columns [Time_<section>] as columns of Python objects (a value
    of a breakdown can be any object, which a cell of the frame model
    cannot hold). *)
Record loaded : Type := mkLoaded {
  loaded_frame : DataFrame;
  loaded_sections : list (string * list (option pyobj))
}.

Section LoadData.

Variable json_loads : string -> option pyobj.

(** The lambda applied for a section: nothing is caught here. *)
Definition section_value (section : string) (x : cell) : attempt (option pyobj) :=
  match x with
  | Text s =>
      match json_loads (replace single_quote double_quote s) with
      | None => inr JSONDecodeError
      | Some (PDict items) => inl (dict_get items section)
      | Some _ => inr AttributeError
      end
  | _ => inl None
  end.

(** [series.apply] of that lambda. *)
Fixpoint section_column (section : string) (col : Series)
  : attempt (list (option pyobj)) :=
  match col with
  | [] => inl []
  | x :: col' =>
      v <~ section_value section x ;;
      rest <~ section_column section col' ;;
      inl (v :: rest)
  end.

(** The loop over the sections. *)
Fixpoint section_columns (names : list string) (col : Series)
  : attempt (list (string * list (option pyobj))) :=
  match names with
  | [] => inl []
  | section :: names' =>
      values <~ section_column section col ;;
      rest <~ section_columns names' col ;;
      inl (("Time_" ++ section, values) :: rest)
  end.

Definition load_data (df : DataFrame) : loaded + load_exn :=
  match add_total_time_spent json_loads df with
  | Raises KeyError => inr LoadKeyError
  | Raises TypeError => inr LoadTypeError
  | Returns df' =>
      match getitem df' "Time_Spent" with
      | Raises _ => inr LoadKeyError
      | Returns col =>
          match section_columns sections col with
          | inl cols => inl (mkLoaded df' cols)
          | inr JSONDecodeError => inr LoadJSONDecodeError
          | inr AttributeError => inr LoadAttributeError
          | inr SumTypeError => inr LoadTypeError
          end
      end
  end.

End LoadData.

(** A cell of [Time_Spent] that [load_data] gets through: no text, or a
    text that decodes to a dictionary. *)
Definition loadable (json_loads : string -> option pyobj) (c : cell) : Prop :=
  (forall s, c <> Text s)
  \/ exists s items,
       c = Text s
       /\ json_loads (replace single_quote double_quote s) = Some (PDict items).

(** Rows with a breakdown, an empty breakdown and a missing one. *)
Definition loadable_frame : DataFrame :=
  [("Group", [Text "A"; Text "B"; Text "B"]);
   ("Time_Spent", [Text "{'data_upload': 3, 'data_cleaning': 4}"; Text "{}"; NA])].

(** The time of a section in a breakdown, 0 when the breakdown has no
    such section. *)
Definition section_time (items : list (string * pyobj)) (section : string) : R :=
  match dict_get items section with
  | Some v => real_of_obj v
  | None => 0
  end.

(** ** Describing the dataset (data_analysis.py, [describe_dataset]:
       the entry [group_stats]) *)

(** [Series.min()] and [Series.max()] of a series that is not empty. *)
Definition series_min (xs : list R) : R :=
  match xs with
  | [] => 0
  | x :: rest => fold_right Rmin x rest
  end.

Definition series_max (xs : list R) : R :=
  match xs with
  | [] => 0
  | x :: rest => fold_right Rmax x rest
  end.

(** A statistic of the values of a column: NaN when there is none. *)
Definition statistic (f : list R -> R) (xs : list R) : value :=
  VFloat (match xs with
          | [] => NaN
          | _ :: _ => Fin (f xs)
          end).

(** The five statistics of the values [xs] of a column; the standard
    deviation of fewer than two values is NaN.  The numbers are exact
    reals: the rounding of float64 is left out, and the minimum and the
    maximum of an integer column, which pandas returns as integers, are
    the floats of the same value. *)
Definition column_stats (xs : list R) : dict :=
  [("mean", statistic mean xs);
   ("median", statistic median xs);
   ("std", VFloat (if (len xs <? 2)%nat then NaN else Fin (std xs)));
   ("min", statistic series_min xs);
   ("max", statistic series_max xs)].

(** [a == b] between cells: a missing cell equals nothing. *)
Definition cell_eqb (a b : cell) : bool :=
  match a, b with
  | Num x, Num y => if Req_dec_T x y then true else false
  | Text s, Text t => String.eqb s t
  | _, _ => false
  end.

(** [series.unique()]: the values in the order of their first
    appearance, the missing value once. *)
Fixpoint unique_from (seen : list cell) (s : Series) : list cell :=
  match s with
  | [] => []
  | c :: s' =>
      if existsb (fun d => cell_eqb d c || (isna d && isna c)) seen
      then unique_from seen s'
      else c :: unique_from (c :: seen) s'
  end.

Definition unique (s : Series) : list cell := unique_from [] s.

(** [description['group_stats']]: for each group, for each numeric
    column, the statistics of the group's values. *)
Definition group_stats (df : DataFrame)
  : outcome (list (cell * list (string * dict))) :=
  g <- getitem df "Group" ;;
  Returns
    (map (fun group =>
            (group,
             map (fun c =>
                    (fst c,
                     column_stats
                       (numbers (boolean_index (map (cell_eqb group) g) (snd c)))))
               (filter (fun c => is_number_dtype (snd c)) df)))
       (unique g)).

(** A frame without the column of group labels. *)
Definition unlabelled_frame : DataFrame :=
  [("User_ID", [Num 1; Num 2]); ("Score", [Num 4; Num 6])].

(** * Properties *)

Local Open Scope R_scope.

Lemma number_no_text (s : Series) : is_number_dtype s = true -> no_text s = true.
Proof. destruct s; [discriminate|]. intros H. exact H. Qed.

Lemma dropna_numbers_len (s : Series) :
  no_text s = true -> len (dropna s) = len (numbers s).
Proof.
  induction s as [|c s IH]; simpl; [reflexivity|].
  destruct c; simpl; try discriminate; intros H.
  - f_equal. apply IH, H.
  - apply IH, H.
Qed.

Lemma to_numpy_dropna (s : Series) :
  no_text s = true -> to_numpy (dropna s) = Returns (numbers s).
Proof.
  induction s as [|c s IH]; simpl; [reflexivity|].
  destruct c; simpl; try discriminate; intros H.
  - rewrite (IH H). reflexivity.
  - apply IH, H.
Qed.

Lemma to_numpy_returns (s : Series) (xs : list R) :
  to_numpy s = Returns xs -> s = map Num xs.
Proof.
  revert xs. induction s as [|c s IH]; simpl; intros xs H.
  - injection H as <-. reflexivity.
  - destruct c; try discriminate.
    destruct (to_numpy s) as [ys|]; [|discriminate].
    injection H as <-. simpl. f_equal. apply IH. reflexivity.
Qed.

Lemma boolean_index_number (mask : list bool) (s : Series) :
  no_text s = true -> no_text (boolean_index mask s) = true.
Proof.
  revert s. induction mask as [|m mask IH]; intros [|c s]; simpl; auto.
  intros H. apply andb_true_iff in H as [Hc Hs].
  destruct m; simpl; [rewrite Hc; simpl|]; auto.
Qed.

Lemma group_rows_len (g col : Series) (label : string) :
  is_number_dtype col = true ->
  len (group_rows g col label) = len (sample g col label).
Proof.
  intros H. apply dropna_numbers_len, boolean_index_number, number_no_text, H.
Qed.

Lemma group_rows_numpy (g col : Series) (label : string) :
  is_number_dtype col = true ->
  to_numpy (group_rows g col label) = Returns (sample g col label).
Proof.
  intros H. apply to_numpy_dropna, boolean_index_number, number_no_text, H.
Qed.

Lemma group_of_eq (df : DataFrame) (metric label : string) (g col : Series) :
  getitem df "Group" = Returns g ->
  getitem df metric = Returns col ->
  group_of df label metric = Returns (group_rows g col label).
Proof. intros Hg Hcol. unfold group_of. rewrite Hg, Hcol. reflexivity. Qed.

Lemma small_or (m n k : nat) :
  ((m <? k)%nat || (n <? k)%nat)%bool = true <-> (m < k \/ n < k)%nat.
Proof. rewrite orb_true_iff, !Nat.ltb_lt. reflexivity. Qed.

Lemma not_small_or (m n k : nat) :
  ((m <? k)%nat || (n <? k)%nat)%bool = false <-> (k <= m /\ k <= n)%nat.
Proof. rewrite orb_false_iff, !Nat.ltb_ge. reflexivity. Qed.

Section RunnerFacts.

Variable student_sf : R -> R -> R.
Variable norm_sf : R -> R.

Variables (df : DataFrame) (metric : string) (alpha : R) (g col : Series).
Hypothesis Hg : getitem df "Group" = Returns g.
Hypothesis Hcol : getitem df metric = Returns col.

Lemma run_t_test_insufficient :
  (len (group_rows g col "A") < 2 \/ len (group_rows g col "B") < 2)%nat ->
  run_t_test student_sf norm_sf df metric alpha = Returns (t_test_error metric).
Proof.
  intros H. unfold run_t_test.
  rewrite !(group_of_eq _ _ _ _ _ Hg Hcol). simpl.
  apply small_or in H. rewrite H. reflexivity.
Qed.

Lemma run_mann_whitney_insufficient :
  (len (group_rows g col "A") < 1 \/ len (group_rows g col "B") < 1)%nat ->
  run_mann_whitney_test norm_sf df metric alpha
  = Returns (mann_whitney_error metric).
Proof.
  intros H. unfold run_mann_whitney_test.
  rewrite !(group_of_eq _ _ _ _ _ Hg Hcol). simpl.
  apply small_or in H. rewrite H. reflexivity.
Qed.

Hypothesis Hnum : is_number_dtype col = true.

Lemma run_t_test_sufficient :
  (2 <= len (sample g col "A"))%nat ->
  (2 <= len (sample g col "B"))%nat ->
  run_t_test student_sf norm_sf df metric alpha
  = Returns (t_test_report student_sf norm_sf metric alpha
               (sample g col "A") (sample g col "B")).
Proof.
  intros Ha Hb. unfold run_t_test.
  rewrite !(group_of_eq _ _ _ _ _ Hg Hcol). cbn [bind].
  rewrite <- (group_rows_len g col "A" Hnum) in Ha.
  rewrite <- (group_rows_len g col "B" Hnum) in Hb.
  pose proof (proj2 (not_small_or _ _ 2%nat) (conj Ha Hb)) as E. rewrite E.
  rewrite !(group_rows_numpy _ _ _ Hnum). cbn [bind].
  unfold t_test_report. rewrite !(group_rows_len _ _ _ Hnum).
  destruct (ttest_ind student_sf norm_sf _ _). reflexivity.
Qed.

Lemma run_mann_whitney_sufficient :
  (1 <= len (sample g col "A"))%nat ->
  (1 <= len (sample g col "B"))%nat ->
  run_mann_whitney_test norm_sf df metric alpha
  = Returns (mann_whitney_report norm_sf metric alpha
               (sample g col "A") (sample g col "B")).
Proof.
  intros Ha Hb. unfold run_mann_whitney_test.
  rewrite !(group_of_eq _ _ _ _ _ Hg Hcol). cbn [bind].
  rewrite <- (group_rows_len g col "A" Hnum) in Ha.
  rewrite <- (group_rows_len g col "B" Hnum) in Hb.
  pose proof (proj2 (not_small_or _ _ 1%nat) (conj Ha Hb)) as E. rewrite E.
  rewrite !(group_rows_numpy _ _ _ Hnum). cbn [bind].
  unfold mann_whitney_report. rewrite !(group_rows_len _ _ _ Hnum).
  destruct (mannwhitneyu norm_sf _ _). reflexivity.
Qed.

End RunnerFacts.

(** ** Error results *)

(** C3.  With fewer than two values in either group [run_t_test] returns
    the "Insufficient data" dictionary, which has the three text fields
    [metric], [test], [error] and nothing numeric, whatever the library
    functions are and whatever the column holds; the rank test asks for
    one value per group only, so with exactly one value in group A (and
    a value in group B) the t-test result is the error dictionary while
    [run_mann_whitney_test] returns its full report. *)
Theorem C3_insufficient_data_thresholds :
  forall (student_sf : R -> R -> R) (norm_sf : R -> R)
         (df : DataFrame) (metric : string) (alpha : R) (g col : Series),
    getitem df "Group" = Returns g ->
    getitem df metric = Returns col ->
    ((len (group_rows g col "A") < 2 \/ len (group_rows g col "B") < 2)%nat ->
     run_t_test student_sf norm_sf df metric alpha
     = Returns [("metric", VStr metric);
                ("test", VStr "t-test");
                ("error", VStr "Insufficient data for t-test")])
    /\ ((len (group_rows g col "A") < 1 \/ len (group_rows g col "B") < 1)%nat ->
        run_mann_whitney_test norm_sf df metric alpha
        = Returns [("metric", VStr metric);
                   ("test", VStr "mann-whitney");
                   ("error", VStr "Insufficient data for Mann-Whitney test")])
    /\ (is_number_dtype col = true ->
        len (sample g col "A") = 1%nat ->
        (1 <= len (sample g col "B"))%nat ->
        run_t_test student_sf norm_sf df metric alpha
        = Returns (t_test_error metric)
        /\ run_mann_whitney_test norm_sf df metric alpha
           = Returns (mann_whitney_report norm_sf metric alpha
                        (sample g col "A") (sample g col "B"))
        /\ contains (mann_whitney_report norm_sf metric alpha
                       (sample g col "A") (sample g col "B")) "error" = false
        /\ get (mann_whitney_report norm_sf metric alpha
                  (sample g col "A") (sample g col "B")) "group_a_median"
           = Some (VFloat (Fin (median (sample g col "A"))))).
Proof.
  intros student_sf norm_sf df metric alpha g col Hg Hcol.
  split; [|split].
  - intros H. apply (run_t_test_insufficient _ _ _ _ _ _ _ Hg Hcol H).
  - intros H. apply (run_mann_whitney_insufficient _ _ _ _ _ _ Hg Hcol H).
  - intros Hnum Ha Hb. repeat split.
    + apply (run_t_test_insufficient _ _ _ _ _ _ _ Hg Hcol).
      left. rewrite (group_rows_len _ _ _ Hnum), Ha. lia.
    + apply (run_mann_whitney_sufficient _ _ _ _ _ _ Hg Hcol Hnum); lia.
Qed.

(** C9.  A dictionary returned by either runner has the key [error]
    exactly when the runner's sample-size check failed (2 per group for
    the t-test, 1 per group for the rank test); with the key it has the
    keys [metric], [test], [error] and no others, so no [significant]
    key; without it, it has the [significant] key. *)
Theorem C9_error_key_discriminates :
  forall (student_sf : R -> R -> R) (norm_sf : R -> R)
         (df : DataFrame) (metric : string) (alpha : R) (d : dict),
    (run_t_test student_sf norm_sf df metric alpha = Returns d ->
     exists g col,
       getitem df "Group" = Returns g /\ getitem df metric = Returns col
       /\ (contains d "error" = true <->
           (len (group_rows g col "A") < 2 \/ len (group_rows g col "B") < 2)%nat)
       /\ (contains d "error" = true ->
           keys d = ["metric"; "test"; "error"]
           /\ contains d "significant" = false)
       /\ (contains d "error" = false -> contains d "significant" = true))
    /\ (run_mann_whitney_test norm_sf df metric alpha = Returns d ->
        exists g col,
          getitem df "Group" = Returns g /\ getitem df metric = Returns col
          /\ (contains d "error" = true <->
              (len (group_rows g col "A") < 1 \/ len (group_rows g col "B") < 1)%nat)
          /\ (contains d "error" = true ->
              keys d = ["metric"; "test"; "error"]
              /\ contains d "significant" = false)
          /\ (contains d "error" = false -> contains d "significant" = true)).
Proof.
  intros student_sf norm_sf df metric alpha d. split.
  - unfold run_t_test, group_of.
    destruct (getitem df "Group") as [g|] eqn:Hg; [|discriminate].
    destruct (getitem df metric) as [col|] eqn:Hcol; [|discriminate].
    cbn [bind]. fold (group_rows g col "A") (group_rows g col "B").
    intros H. exists g, col. split; [reflexivity|]. split; [reflexivity|].
    rewrite <- small_or.
    destruct ((len (group_rows g col "A") <? 2)%nat
              || (len (group_rows g col "B") <? 2)%nat)%bool.
    + injection H as <-. repeat split; auto; discriminate.
    + destruct (to_numpy (group_rows g col "A")) as [a|]; [|discriminate].
      destruct (to_numpy (group_rows g col "B")) as [b|]; [|discriminate].
      cbn [bind] in H. destruct (ttest_ind student_sf norm_sf a b).
      injection H as <-. repeat split; auto; discriminate.
  - unfold run_mann_whitney_test, group_of.
    destruct (getitem df "Group") as [g|] eqn:Hg; [|discriminate].
    destruct (getitem df metric) as [col|] eqn:Hcol; [|discriminate].
    cbn [bind]. fold (group_rows g col "A") (group_rows g col "B").
    intros H. exists g, col. split; [reflexivity|]. split; [reflexivity|].
    rewrite <- small_or.
    destruct ((len (group_rows g col "A") <? 1)%nat
              || (len (group_rows g col "B") <? 1)%nat)%bool.
    + injection H as <-. repeat split; auto; discriminate.
    + destruct (to_numpy (group_rows g col "A")) as [a|]; [|discriminate].
      destruct (to_numpy (group_rows g col "B")) as [b|]; [|discriminate].
      cbn [bind] in H. destruct (mannwhitneyu norm_sf a b).
      injection H as <-. repeat split; auto; discriminate.
Qed.

(** ** The aggregator *)

Lemma getitem_in (df : DataFrame) (name : string) (s : Series) :
  NoDup (map fst df) -> In (name, s) df -> getitem df name = Returns s.
Proof.
  induction df as [|[n c] df IH]; simpl; [tauto|].
  intros Hnd [E|Hin].
  - injection E as -> ->. rewrite String.eqb_refl. reflexivity.
  - inversion Hnd as [|? ? Hn Hnd']; subst.
    destruct (String.eqb_spec n name) as [->|_].
    + exfalso. apply Hn. apply (in_map fst) in Hin. exact Hin.
    + apply IH; assumption.
Qed.

Lemma metrics_filter (df : DataFrame) :
  filter (fun col => negb (String.eqb col "User_ID")) (select_dtypes_number df)
  = expected_metrics df.
Proof.
  unfold select_dtypes_number, expected_metrics.
  induction df as [|[n c] df IH]; simpl; [reflexivity|].
  destruct (is_number_dtype c); simpl; [|exact IH].
  destruct (negb (String.eqb n "User_ID")); simpl; rewrite IH; reflexivity.
Qed.

Lemma expected_metrics_in (df : DataFrame) (m : string) :
  In m (expected_metrics df) ->
  exists col, In (m, col) df /\ is_number_dtype col = true.
Proof.
  unfold expected_metrics. intros H.
  apply in_map_iff in H as [[n c] [E H]]. simpl in E. subst n.
  apply filter_In in H as [Hin Hc]. simpl in Hc.
  apply andb_true_iff in Hc as [Hc _]. exists c. split; assumption.
Qed.

Section Aggregator.

Variable student_sf : R -> R -> R.
Variable norm_sf : R -> R.
Variables (df : DataFrame) (alpha : R) (g : Series).
Hypothesis Hg : getitem df "Group" = Returns g.

(** On a numeric column both runners return, and the entry carries the
    metric's name. *)
Lemma runners_return (m : string) (col : Series) :
  getitem df m = Returns col ->
  is_number_dtype col = true ->
  (exists d, run_t_test student_sf norm_sf df m alpha = Returns d
             /\ metric_of d = Some (VStr m))
  /\ (exists d, run_mann_whitney_test norm_sf df m alpha = Returns d
                /\ metric_of d = Some (VStr m)).
Proof.
  intros Hcol Hnum. split.
  - destruct (le_lt_dec 2 (len (sample g col "A"))) as [Ha|Ha];
      [destruct (le_lt_dec 2 (len (sample g col "B"))) as [Hb|Hb]|].
    + eexists. split;
        [apply (run_t_test_sufficient _ _ _ _ _ _ _ Hg Hcol Hnum Ha Hb)|reflexivity].
    + eexists. split; [apply (run_t_test_insufficient _ _ _ _ _ _ _ Hg Hcol);
       right; rewrite (group_rows_len _ _ _ Hnum); exact Hb|reflexivity].
    + eexists. split; [apply (run_t_test_insufficient _ _ _ _ _ _ _ Hg Hcol);
       left; rewrite (group_rows_len _ _ _ Hnum); exact Ha|reflexivity].
  - destruct (le_lt_dec 1 (len (sample g col "A"))) as [Ha|Ha];
      [destruct (le_lt_dec 1 (len (sample g col "B"))) as [Hb|Hb]|].
    + eexists. split;
        [apply (run_mann_whitney_sufficient _ _ _ _ _ _ Hg Hcol Hnum Ha Hb)|reflexivity].
    + eexists. split; [apply (run_mann_whitney_insufficient _ _ _ _ _ _ Hg Hcol);
       right; rewrite (group_rows_len _ _ _ Hnum); exact Hb|reflexivity].
    + eexists. split; [apply (run_mann_whitney_insufficient _ _ _ _ _ _ Hg Hcol);
       left; rewrite (group_rows_len _ _ _ Hnum); exact Ha|reflexivity].
Qed.

(** The loop appends one entry per metric to each list and never stops
    early. *)
Lemma analyze_loop_appends (ms : list string) :
  Forall (fun m => exists col, getitem df m = Returns col
                               /\ is_number_dtype col = true) ms ->
  forall acc, exists ts mws,
    analyze_loop student_sf norm_sf df alpha ms acc
    = Returns (mkResults (t_test_results acc ++ ts)
                         (mann_whitney_results acc ++ mws))
    /\ Forall2 (fun m d => run_t_test student_sf norm_sf df m alpha = Returns d
                           /\ metric_of d = Some (VStr m)) ms ts
    /\ Forall2 (fun m d => run_mann_whitney_test norm_sf df m alpha = Returns d
                           /\ metric_of d = Some (VStr m)) ms mws.
Proof.
  induction 1 as [|m ms [col [Hcol Hnum]] _ IH]; intros acc.
  - exists [], []. simpl. rewrite !app_nil_r. destruct acc.
    repeat split; constructor.
  - destruct (runners_return m col Hcol Hnum) as [[t [Ht Hmt]] [w [Hw Hmw]]].
    destruct (IH (mkResults (t_test_results acc ++ [t])
                            (mann_whitney_results acc ++ [w])))
      as [ts [mws [E [Fts Fmws]]]].
    exists (t :: ts), (w :: mws). simpl. rewrite Ht, Hw. cbn [bind].
    rewrite E. simpl. rewrite <- !app_assoc. simpl.
    repeat split; constructor; auto.
Qed.

End Aggregator.

Lemma Forall2_metric_names (P : string -> dict -> Prop) ms ds :
  Forall2 (fun m d => P m d /\ metric_of d = Some (VStr m)) ms ds ->
  map metric_of ds = map (fun m => Some (VStr m)) ms
  /\ len ds = len ms
  /\ Forall2 P ms ds.
Proof.
  induction 1 as [|m d ms ds [HP Hm] _ [IH1 [IH2 IH3]]]; simpl.
  - repeat split; constructor.
  - rewrite Hm, IH1. unfold len in *. simpl. rewrite IH2.
    repeat split. constructor; assumption.
Qed.

(** C7.  On a frame with distinct column names and a [Group] column,
    [analyze_all_metrics] returns; its two lists have one length, and
    both hold, in table order, exactly one entry per numeric column
    other than [User_ID]: the entry at each position is what the runner
    returns for that column and carries that column's name, be it an
    error entry or a full report. *)
Theorem C7_aggregator_alignment :
  forall (student_sf : R -> R -> R) (norm_sf : R -> R)
         (df : DataFrame) (alpha : R) (g : Series),
    NoDup (map fst df) ->
    getitem df "Group" = Returns g ->
    exists r,
      analyze_all_metrics student_sf norm_sf df alpha = Returns r
      /\ len (t_test_results r) = len (mann_whitney_results r)
      /\ len (t_test_results r) = len (expected_metrics df)
      /\ map metric_of (t_test_results r)
         = map (fun m => Some (VStr m)) (expected_metrics df)
      /\ map metric_of (mann_whitney_results r)
         = map (fun m => Some (VStr m)) (expected_metrics df)
      /\ Forall2 (fun m d => run_t_test student_sf norm_sf df m alpha = Returns d)
           (expected_metrics df) (t_test_results r)
      /\ Forall2 (fun m d => run_mann_whitney_test norm_sf df m alpha = Returns d)
           (expected_metrics df) (mann_whitney_results r).
Proof.
  intros student_sf norm_sf df alpha g Hnd Hg.
  unfold analyze_all_metrics. rewrite metrics_filter.
  destruct (analyze_loop_appends student_sf norm_sf df alpha g Hg
              (expected_metrics df)) with (acc := mkResults [] [])
    as [ts [mws [E [Fts Fmws]]]].
  - apply Forall_forall. intros m Hm.
    destruct (expected_metrics_in df m Hm) as [col [Hin Hnum]].
    exists col. split; [apply getitem_in; assumption|assumption].
  - exists (mkResults ts mws). simpl in E. split; [exact E|]. simpl.
    apply Forall2_metric_names in Fts as [T1 [T2 T3]].
    apply Forall2_metric_names in Fmws as [W1 [W2 W3]].
    repeat split; auto. congruence.
Qed.

(** A table without rows has no numeric column: the aggregator returns
    two empty lists. *)
Example header_only_frame_has_no_metric :
  expected_metrics header_only_frame = []
  /\ analyze_all_metrics student_sf_two norm_sf_at_zero header_only_frame (5 / 100)
     = Returns (mkResults [] []).
Proof. split; reflexivity. Qed.

(** ** Descriptive statistics *)

Lemma sum_app (xs ys : list R) : sum (xs ++ ys) = sum xs + sum ys.
Proof. induction xs as [|x xs IH]; simpl; [lra|rewrite IH; lra]. Qed.




Lemma sum_squares_nonneg (m : R) (xs : list R) :
  0 <= sum (map (fun x => (x - m) ^ 2) xs).
Proof.
  induction xs as [|x xs IH]; unfold sum in *; simpl in *; [lra|].
  pose proof (pow2_ge_0 (x - m)) as H. simpl in H. lra.
Qed.

Lemma len_ge_2 {A : Type} (xs : list A) : (2 <= len xs)%nat -> 2 <= INR (len xs).
Proof. intros H. apply le_INR in H. simpl in H. lra. Qed.

Lemma var_nonneg (xs : list R) : (2 <= len xs)%nat -> 0 <= var xs.
Proof.
  intros H. apply len_ge_2 in H. unfold var.
  apply Rmult_le_pos; [apply sum_squares_nonneg|].
  apply Rlt_le, Rinv_0_lt_compat. lra.
Qed.

Lemma std_pow2 (xs : list R) : (2 <= len xs)%nat -> std xs ^ 2 = var xs.
Proof.
  intros H. unfold std. simpl. rewrite Rmult_1_r.
  apply sqrt_sqrt, var_nonneg, H.
Qed.

(** What the code computes is the pooled deviation of the
    specification. *)
Lemma pooled_std_code_spec (a b : list R) :
  (2 <= len a)%nat -> (2 <= len b)%nat ->
  pooled_std_code a b = pooled_std_spec a b.
Proof.
  intros Ha Hb. unfold pooled_std_code, pooled_std_spec.
  rewrite (std_pow2 a Ha), (std_pow2 b Hb). reflexivity.
Qed.

Lemma pooled_std_spec_nonneg (a b : list R) : 0 <= pooled_std_spec a b.
Proof. apply sqrt_pos. Qed.

Lemma pooled_std_spec_sym (a b : list R) :
  pooled_std_spec a b = pooled_std_spec b a.
Proof. unfold pooled_std_spec. f_equal. f_equal; lra. Qed.

(** The [effect_size] entry of a report, by the pooled deviation of the
    specification. *)
Lemma report_effect_size student_sf norm_sf metric alpha (a b : list R) :
  (2 <= len a)%nat -> (2 <= len b)%nat ->
  get (t_test_report student_sf norm_sf metric alpha a b) "effect_size"
  = Some (if Req_dec_T (pooled_std_spec a b) 0 then VInt 0
          else VFloat (Fin (Rabs (mean b - mean a) / pooled_std_spec a b))).
Proof.
  intros Ha Hb. cbn [t_test_report get String.eqb Ascii.eqb Bool.eqb].
  fold (pooled_std_code a b). rewrite (pooled_std_code_spec a b Ha Hb).
  pose proof (pooled_std_spec_nonneg a b) as Hp.
  rewrite (Rabs_minus_sym (mean a) (mean b)).
  destruct (Rlt_dec 0 (pooled_std_spec a b)) as [Hlt|Hge];
    destruct (Req_dec_T (pooled_std_spec a b) 0) as [E|N];
    try reflexivity; exfalso; lra.
Qed.

(** ** Swapping the labels *)

Lemma eq_label_swap_A (c : cell) : eq_label "A" (swap_label c) = eq_label "B" c.
Proof.
  destruct c as [x|s|]; simpl; try reflexivity.
  destruct (String.eqb_spec s "A") as [->|NA']; [reflexivity|].
  destruct (String.eqb_spec s "B") as [->|NB]; [reflexivity|].
  simpl. apply String.eqb_neq in NA'. exact NA'.
Qed.

Lemma eq_label_swap_B (c : cell) : eq_label "B" (swap_label c) = eq_label "A" c.
Proof.
  destruct c as [x|s|]; simpl; try reflexivity.
  destruct (String.eqb_spec s "A") as [->|NA']; [reflexivity|].
  destruct (String.eqb_spec s "B") as [->|NB]; [reflexivity|].
  simpl. apply String.eqb_neq in NB. exact NB.
Qed.

Lemma sample_swap_A (g col : Series) :
  sample (map swap_label g) col "A" = sample g col "B".
Proof.
  unfold sample. rewrite map_map.
  rewrite (map_ext _ _ eq_label_swap_A). reflexivity.
Qed.

Lemma sample_swap_B (g col : Series) :
  sample (map swap_label g) col "B" = sample g col "A".
Proof.
  unfold sample. rewrite map_map.
  rewrite (map_ext _ _ eq_label_swap_B). reflexivity.
Qed.

Lemma getitem_swap_group (df : DataFrame) (g : Series) :
  getitem df "Group" = Returns g ->
  getitem (swap_groups df) "Group" = Returns (map swap_label g).
Proof.
  induction df as [|[n c] df IH]; [discriminate|].
  cbn [swap_groups map fst snd]. fold (swap_groups df).
  destruct (String.eqb n "Group") eqn:E; cbn [getitem]; rewrite E.
  - intros H. injection H as <-. reflexivity.
  - exact IH.
Qed.

Lemma getitem_swap_other (df : DataFrame) (name : string) :
  name <> "Group" ->
  getitem (swap_groups df) name = getitem df name.
Proof.
  intros N. induction df as [|[n c] df IH]; [reflexivity|].
  cbn [swap_groups map fst snd]. fold (swap_groups df).
  destruct (String.eqb_spec n "Group") as [->|NG]; cbn [getitem].
  - apply String.eqb_neq in N. rewrite String.eqb_sym in N. rewrite N. exact IH.
  - rewrite IH. reflexivity.
Qed.

(** No row of a numeric column carries a label. *)
Lemma sample_of_labels (g : Series) (label : string) :
  is_number_dtype g = true -> sample g g label = [].
Proof.
  intros H. apply number_no_text in H. revert H.
  unfold sample. induction g as [|c g IH]; simpl; [reflexivity|].
  destruct c; simpl; try discriminate; exact IH.
Qed.

(** C6.  With two values at least in both groups of a numeric column,
    running [run_t_test] on the frame whose labels A and B are swapped
    returns the opposite [difference] and the same [effect_size] (which
    is its own absolute value). *)
Theorem C6_swap_flips_difference_keeps_effect_size :
  forall (student_sf : R -> R -> R) (norm_sf : R -> R)
         (df : DataFrame) (metric : string) (alpha : R) (g col : Series),
    getitem df "Group" = Returns g ->
    getitem df metric = Returns col ->
    is_number_dtype col = true ->
    (2 <= len (sample g col "A"))%nat ->
    (2 <= len (sample g col "B"))%nat ->
    exists (x : R) (e : value),
      field (run_t_test student_sf norm_sf df metric alpha) "difference"
      = Some (VFloat (Fin x))
      /\ field (run_t_test student_sf norm_sf (swap_groups df) metric alpha) "difference"
         = Some (VFloat (Fin (- x)))
      /\ field (run_t_test student_sf norm_sf df metric alpha) "effect_size"
         = Some e
      /\ field (run_t_test student_sf norm_sf (swap_groups df) metric alpha) "effect_size"
         = Some e
      /\ (e = VInt 0 \/ exists y, e = VFloat (Fin y) /\ 0 <= y).
Proof.
  intros student_sf norm_sf df metric alpha g col Hg Hcol Hnum Ha Hb.
  assert (Hm : metric <> "Group").
  { intros ->. rewrite Hg in Hcol. injection Hcol as ->.
    rewrite (sample_of_labels col "A" Hnum) in Ha. simpl in Ha. lia. }
  pose proof (getitem_swap_group df g Hg) as Hg'.
  pose proof (getitem_swap_other df metric Hm) as Hcol'. rewrite Hcol in Hcol'.
  assert (Ha' : (2 <= len (sample (map swap_label g) col "A"))%nat)
    by (rewrite sample_swap_A; exact Hb).
  assert (Hb' : (2 <= len (sample (map swap_label g) col "B"))%nat)
    by (rewrite sample_swap_B; exact Ha).
  rewrite (run_t_test_sufficient _ _ _ _ _ _ _ Hg Hcol Hnum Ha Hb).
  rewrite (run_t_test_sufficient _ _ _ _ _ _ _ Hg' Hcol' Hnum Ha' Hb').
  rewrite sample_swap_A, sample_swap_B. cbn [field].
  rewrite (report_effect_size _ _ _ _ _ _ Ha Hb).
  rewrite (report_effect_size _ _ _ _ _ _ Hb Ha).
  rewrite (pooled_std_spec_sym (sample g col "B") (sample g col "A")).
  rewrite (Rabs_minus_sym (mean (sample g col "A")) (mean (sample g col "B"))).
  eexists. eexists. split; [reflexivity|].
  split; [cbn; do 3 f_equal; lra|].
  split; [reflexivity|]. split; [reflexivity|].
  destruct (Req_dec_T _ 0) as [E|N]; [left; reflexivity|right].
  eexists. split; [reflexivity|].
  pose proof (pooled_std_spec_nonneg (sample g col "A") (sample g col "B")) as Hp.
  apply Rmult_le_pos; [apply Rabs_pos|].
  apply Rlt_le, Rinv_0_lt_compat. lra.
Qed.

(** ** Identical groups *)

Lemma fdiv_nonzero (x y : R) : y <> 0 -> fdiv x y = Fin (x / y).
Proof. intros H. unfold fdiv. destruct (Req_dec_T y 0); [contradiction|reflexivity]. Qed.



Lemma report_p_value student_sf norm_sf metric alpha (a b : list R) :
  get (t_test_report student_sf norm_sf metric alpha a b) "p_value"
  = Some (VFloat (snd (ttest_ind student_sf norm_sf a b))).
Proof. reflexivity. Qed.

Lemma report_significant student_sf norm_sf metric alpha (a b : list R) :
  get (t_test_report student_sf norm_sf metric alpha a b) "significant"
  = Some (VBool (flt (snd (ttest_ind student_sf norm_sf a b)) alpha)).
Proof. reflexivity. Qed.

Section IdenticalGroups.

Variable student_sf : R -> R -> R.
Variable norm_sf : R -> R.
Variables a b : list R.
Hypothesis Hperm : Permutation a b.
Hypothesis Hlen : (2 <= len a)%nat.


End IdenticalGroups.

Lemma mean_pair (x y : R) : mean [x; y] = (x + y) / 2.
Proof. unfold mean, sum, len. simpl. field. Qed.

Lemma var_pair (x y : R) : var [x; y] = (x - y) ^ 2 / 2.
Proof. unfold var. rewrite mean_pair. unfold sum, len. simpl. field. Qed.


Ltac decide_reals :=
  repeat match goal with
  | |- context [Rlt_dec ?x ?y] =>
      destruct (Rlt_dec x y); [try (exfalso; lra)|try (exfalso; lra)]
  | |- context [Rle_dec ?x ?y] =>
      destruct (Rle_dec x y); [try (exfalso; lra)|try (exfalso; lra)]
  | |- context [Req_dec_T ?x ?y] =>
      destruct (Req_dec_T x y); [try (exfalso; lra)|try (exfalso; lra)]
  end.

Lemma median_pair (x y : R) : median [x; y] = (x + y) / 2.
Proof.
  unfold median, sort_values. simpl.
  destruct (Rle_dec x y); simpl; lra.
Qed.

Lemma clip01_id (p : R) : 0 <= p <= 1 -> clip01 p = p.
Proof.
  intros [H0 H1]. unfold clip01.
  rewrite (Rmin_right 1 p H1). apply Rmax_right, H0.
Qed.

Lemma scenario_rank_10 : rank [10; 12; 20; 22] 10 = 1.
Proof. unfold rank. simpl. decide_reals. simpl. lra. Qed.

Lemma scenario_rank_12 : rank [10; 12; 20; 22] 12 = 2.
Proof. unfold rank. simpl. decide_reals. simpl. lra. Qed.

Lemma scenario_exact_sf : mwu_exact_sf 4 2 2 = / 6.
Proof. unfold mwu_exact_sf. simpl. decide_reals. simpl. lra. Qed.

Lemma scenario_nodup : nodup Req_dec_T [10; 12; 20; 22] = [10; 12; 20; 22].
Proof.
  apply nodup_fixed_point.
  repeat constructor; simpl; intros H; decompose [or] H; lra.
Qed.

Lemma scenario_mannwhitneyu (norm_sf : R -> R) :
  mannwhitneyu norm_sf [10; 12] [20; 22] = (0, Fin (/ 3)).
Proof.
  unfold mannwhitneyu, mwu_choose_exact.
  change ([10; 12] ++ [20; 22])%list with [10; 12; 20; 22].
  rewrite scenario_nodup.
  cbn [map sum fold_right len List.length Nat.ltb Nat.leb Nat.eqb negb andb].
  rewrite scenario_rank_10, scenario_rank_12.
  replace (1 + (2 + 0) - INR 2 * (INR 2 + 1) / 2) with 0 by (simpl; lra).
  replace (INR 2 * INR 2 - 0) with 4 by (simpl; lra).
  rewrite (Rmax_right 0 4) by lra.
  rewrite scenario_exact_sf, clip01_id by lra.
  do 2 f_equal. lra.
Qed.

Lemma scenario_ttest_ind (student_sf : R -> R -> R) (norm_sf : R -> R) :
  ttest_ind student_sf norm_sf [10; 12] [20; 22]
  = (Fin (- 10 / sqrt 2), Fin (2 * student_sf (10 / sqrt 2) 2)).
Proof.
  assert (Hs : 0 < sqrt 2) by (apply sqrt_lt_R0; lra).
  unfold ttest_ind, unequal_var_ttest_denom.
  rewrite !mean_pair, !var_pair.
  cbn [len List.length]. replace (INR 2) with 2 by (simpl; lra).
  replace ((10 - 12) ^ 2 / 2 / 2 + (20 - 22) ^ 2 / 2 / 2) with 2 by lra.
  replace (((10 - 12) ^ 2 / 2 / 2) ^ 2 / (2 - 1) + ((20 - 22) ^ 2 / 2 / 2) ^ 2 / (2 - 1))
    with 2 by lra.
  rewrite !fdiv_nonzero by lra.
  cbn [nan_to ttest_pvalue].
  replace (2 ^ 2 / 2) with 2 by lra.
  replace (((10 + 12) / 2 - (20 + 22) / 2) / sqrt 2) with (- (10 / sqrt 2))
    by (field; lra).
  rewrite Rabs_Ropp, Rabs_pos_eq.
  - do 2 f_equal. field. lra.
  - apply Rlt_le, Rdiv_lt_0_compat; lra.
Qed.

(** Twice the tail of Student's law with two degrees of freedom beyond
    [10 / sqrt 2] is below 0.05 (it is about 0.0194). *)
Lemma scenario_tail_bound :
  2 * (/ 2 - 10 / sqrt 2 / (2 * sqrt (2 + (10 / sqrt 2) ^ 2))) < 5 / 100.
Proof.
  assert (H2 : 0 < sqrt 2) by (apply sqrt_lt_R0; lra).
  assert (E2 : sqrt 2 * sqrt 2 = 2) by (apply sqrt_sqrt; lra).
  assert (E50 : (10 / sqrt 2) ^ 2 = 50).
  { replace ((10 / sqrt 2) ^ 2) with (100 / (sqrt 2 * sqrt 2)) by (field; lra).
    rewrite E2. lra. }
  rewrite E50. replace (2 + 50) with 52 by lra.
  assert (H52 : 0 < sqrt 52) by (apply sqrt_lt_R0; lra).
  assert (E52 : sqrt 52 * sqrt 52 = 52) by (apply sqrt_sqrt; lra).
  set (s := sqrt 52) in *. set (r := sqrt 2) in *.
  assert (Hx : 95 / 100 < 10 / r / s).
  { apply Rmult_lt_reg_r with (r * s); [nra|].
    replace (10 / r / s * (r * s)) with 10 by (field; lra).
    assert (Hrs : (r * s) * (r * s) = 104) by nra.
    nra. }
  replace (10 / r / (2 * s)) with (10 / r / s / 2) by (field; lra).
  lra.
Qed.

Section Scenario.

Variable student_sf : R -> R -> R.
Variable norm_sf : R -> R.
Hypothesis student_two :
  forall x, 0 <= x -> student_sf x 2 = / 2 - x / (2 * sqrt (2 + x ^ 2)).

Lemma scenario_run_t_test :
  run_t_test student_sf norm_sf scenario_frame "Score" (5 / 100)
  = Returns (t_test_report student_sf norm_sf "Score" (5 / 100) [10; 12] [20; 22]).
Proof.
  exact (run_t_test_sufficient student_sf norm_sf scenario_frame "Score" (5 / 100)
           _ _ eq_refl eq_refl eq_refl (le_n 2) (le_n 2)).
Qed.

Lemma scenario_run_mann_whitney :
  run_mann_whitney_test norm_sf scenario_frame "Score" (5 / 100)
  = Returns (mann_whitney_report norm_sf "Score" (5 / 100) [10; 12] [20; 22]).
Proof.
  exact (run_mann_whitney_sufficient norm_sf scenario_frame "Score" (5 / 100)
           _ _ eq_refl eq_refl eq_refl (le_S _ _ (le_n 1)) (le_S _ _ (le_n 1))).
Qed.

Lemma scenario_t_p_value :
  exists p, snd (ttest_ind student_sf norm_sf [10; 12] [20; 22]) = Fin p
            /\ p < 5 / 100.
Proof.
  rewrite scenario_ttest_ind. cbn [snd]. eexists. split; [reflexivity|].
  rewrite student_two.
  - apply scenario_tail_bound.
  - apply Rlt_le, Rdiv_lt_0_compat; [lra|apply sqrt_lt_R0; lra].
Qed.

Lemma scenario_t_significant :
  field (run_t_test student_sf norm_sf scenario_frame "Score" (5 / 100)) "significant"
  = Some (VBool true).
Proof.
  rewrite scenario_run_t_test. cbn [field]. rewrite report_significant.
  destruct scenario_t_p_value as [p [E Hp]]. rewrite E. unfold flt.
  destruct (Rlt_dec p (5 / 100)); [reflexivity|contradiction].
Qed.

Lemma scenario_mw_significant :
  field (run_mann_whitney_test norm_sf scenario_frame "Score" (5 / 100)) "significant"
  = Some (VBool false)
  /\ field (run_mann_whitney_test norm_sf scenario_frame "Score" (5 / 100)) "p_value"
     = Some (VFloat (Fin (/ 3))).
Proof.
  rewrite scenario_run_mann_whitney. cbn [field].
  unfold mann_whitney_report. rewrite scenario_mannwhitneyu.
  cbn [get String.eqb Ascii.eqb Bool.eqb snd]. unfold flt.
  destruct (Rlt_dec (/ 3) (5 / 100)); [exfalso; lra|split; reflexivity].
Qed.

End Scenario.

(** C1 (amended).  On the four rows with 10 and 12 in group A and 20 and
    22 in group B, [run_t_test] at the level 0.05 returns the means 11
    and 21, the difference 10, the percent change 1000/11 (90.91 to two
    decimals), a p-value below 0.05 and [significant = true];
    [run_mann_whitney_test] returns the medians 11 and 21 and the same
    difference 10, but its exact two-sided p-value is 1/3, so its
    [significant] entry is false.  The p-value of the t-test uses the
    closed form of Student's law at the two degrees of freedom Welch's
    formula gives here. *)
Theorem C1_four_row_scenario :
  forall (student_sf : R -> R -> R) (norm_sf : R -> R),
    (forall x, 0 <= x -> student_sf x 2 = / 2 - x / (2 * sqrt (2 + x ^ 2))) ->
    field (run_t_test student_sf norm_sf scenario_frame "Score" (5 / 100))
      "group_a_mean" = Some (VFloat (Fin 11))
    /\ field (run_t_test student_sf norm_sf scenario_frame "Score" (5 / 100))
         "group_b_mean" = Some (VFloat (Fin 21))
    /\ field (run_t_test student_sf norm_sf scenario_frame "Score" (5 / 100))
         "difference" = Some (VFloat (Fin 10))
    /\ field (run_t_test student_sf norm_sf scenario_frame "Score" (5 / 100))
         "percent_change" = Some (VFloat (Fin (1000 / 11)))
    /\ 90905 / 1000 <= 1000 / 11 < 90915 / 1000
    /\ (exists p,
          field (run_t_test student_sf norm_sf scenario_frame "Score" (5 / 100))
            "p_value" = Some (VFloat (Fin p))
          /\ p < 5 / 100)
    /\ field (run_t_test student_sf norm_sf scenario_frame "Score" (5 / 100))
         "significant" = Some (VBool true)
    /\ field (run_mann_whitney_test norm_sf scenario_frame "Score" (5 / 100))
         "group_a_median" = Some (VFloat (Fin 11))
    /\ field (run_mann_whitney_test norm_sf scenario_frame "Score" (5 / 100))
         "group_b_median" = Some (VFloat (Fin 21))
    /\ field (run_mann_whitney_test norm_sf scenario_frame "Score" (5 / 100))
         "difference" = Some (VFloat (Fin 10))
    /\ field (run_mann_whitney_test norm_sf scenario_frame "Score" (5 / 100))
         "p_value" = Some (VFloat (Fin (/ 3)))
    /\ field (run_mann_whitney_test norm_sf scenario_frame "Score" (5 / 100))
         "significant" = Some (VBool false).
Proof.
  intros student_sf norm_sf Hsf.
  assert (Ea : mean [10; 12] = 11) by (rewrite mean_pair; lra).
  assert (Eb : mean [20; 22] = 21) by (rewrite mean_pair; lra).
  assert (Ma : median [10; 12] = 11) by (rewrite median_pair; lra).
  assert (Mb : median [20; 22] = 21) by (rewrite median_pair; lra).
  repeat match goal with |- _ /\ _ => split end.
  - rewrite scenario_run_t_test. cbn [field t_test_report get String.eqb Ascii.eqb Bool.eqb].
    rewrite Ea. reflexivity.
  - rewrite scenario_run_t_test. cbn [field t_test_report get String.eqb Ascii.eqb Bool.eqb].
    rewrite Eb. reflexivity.
  - rewrite scenario_run_t_test. cbn [field t_test_report get String.eqb Ascii.eqb Bool.eqb].
    rewrite Ea, Eb. do 3 f_equal. lra.
  - rewrite scenario_run_t_test. cbn [field t_test_report get String.eqb Ascii.eqb Bool.eqb].
    rewrite Ea, Eb. destruct (Req_dec_T 11 0); [exfalso; lra|].
    do 3 f_equal. lra.
  - lra.
  - lra.
  - destruct (scenario_t_p_value student_sf norm_sf Hsf) as [p [E Hp]].
    exists p. split; [|exact Hp].
    rewrite scenario_run_t_test. cbn [field]. rewrite report_p_value, E. reflexivity.
  - apply scenario_t_significant, Hsf.
  - rewrite scenario_run_mann_whitney.
    cbn [field mann_whitney_report get String.eqb Ascii.eqb Bool.eqb].
    rewrite Ma. reflexivity.
  - rewrite scenario_run_mann_whitney.
    cbn [field mann_whitney_report get String.eqb Ascii.eqb Bool.eqb].
    rewrite Mb. reflexivity.
  - rewrite scenario_run_mann_whitney.
    cbn [field mann_whitney_report get String.eqb Ascii.eqb Bool.eqb].
    rewrite Ma, Mb. do 3 f_equal. lra.
  - apply scenario_mw_significant.
  - apply scenario_mw_significant.
Qed.

Lemma student_sf_two_closed (x : R) :
  0 <= x -> student_sf_two x 2 = / 2 - x / (2 * sqrt (2 + x ^ 2)).
Proof. intros _. reflexivity. Defined.

(** The amended C1 with Student's law at two degrees of freedom. *)
Lemma C1_four_row_scenario_witness :
  field (run_t_test student_sf_two norm_sf_at_zero scenario_frame "Score" (5 / 100))
    "group_a_mean" = Some (VFloat (Fin 11))
  /\ field (run_t_test student_sf_two norm_sf_at_zero scenario_frame "Score" (5 / 100))
       "significant" = Some (VBool true)
  /\ field (run_mann_whitney_test norm_sf_at_zero scenario_frame "Score" (5 / 100))
       "group_a_median" = Some (VFloat (Fin 11))
  /\ field (run_mann_whitney_test norm_sf_at_zero scenario_frame "Score" (5 / 100))
       "significant" = Some (VBool false).
Proof.
  pose proof (C1_four_row_scenario student_sf_two norm_sf_at_zero
                student_sf_two_closed) as H.
  repeat split; apply H.
Defined.

(** C1 fails as stated: in the scenario the t-test is significant and
    the rank test is not, its p-value being 1/3. *)
Lemma C1_counterexample_rank_test_not_significant :
  field (run_t_test student_sf_two norm_sf_at_zero scenario_frame "Score" (5 / 100))
    "significant" = Some (VBool true)
  /\ field (run_mann_whitney_test norm_sf_at_zero scenario_frame "Score" (5 / 100))
       "significant" = Some (VBool false)
  /\ field (run_mann_whitney_test norm_sf_at_zero scenario_frame "Score" (5 / 100))
       "p_value" = Some (VFloat (Fin (/ 3))).
Proof.
  split; [apply scenario_t_significant, student_sf_two_closed|].
  apply scenario_mw_significant.
Qed.

(** ** The derived total *)

Lemma py_add_number (acc : number) (v : pyobj) :
  is_number_obj v = true ->
  exists n, py_add acc v = inl n
            /\ real_of_number n = real_of_number acc + real_of_obj v.
Proof.
  destruct acc as [a|a], v; simpl; try discriminate; intros _;
    eexists; (split; [reflexivity|]); simpl;
    rewrite ?plus_IZR; reflexivity.
Qed.

Lemma py_sum_numbers (vs : list pyobj) :
  forallb is_number_obj vs = true ->
  forall acc, exists n,
    py_sum acc vs = inl n
    /\ real_of_number n = real_of_number acc + sum (map real_of_obj vs).
Proof.
  induction vs as [|v vs IH]; simpl; intros H acc.
  - exists acc. split; [reflexivity|lra].
  - apply andb_true_iff in H as [Hv Hvs].
    destruct (py_add_number acc v Hv) as [n [E En]].
    destruct (IH Hvs n) as [m [E' Em]].
    exists m. rewrite E. simpl. split; [exact E'|]. rewrite Em, En. lra.
Qed.

Lemma py_sum_error (vs : list pyobj) (acc : number) (e : parse_exn) :
  py_sum acc vs = inr e -> e = SumTypeError.
Proof.
  revert acc. induction vs as [|v vs IH]; simpl; intros acc; [discriminate|].
  destruct (py_add acc v) as [n|e'] eqn:Ea; simpl.
  - apply IH.
  - intros H. injection H as <-.
    destruct acc, v; simpl in Ea; congruence.
Qed.

Lemma cell_of_number (n : number) :
  cell_of_value (value_of_number n) = Num (real_of_number n).
Proof. destruct n; reflexivity. Qed.

Lemma value_of_number_not_nan (n : number) : value_of_number n <> VFloat NaN.
Proof. destruct n; discriminate. Qed.

Section Parser.

Variable json_loads : string -> option pyobj.

Lemma parse_dict_of_numbers (s : string) (items : list (string * pyobj)) :
  json_loads (replace single_quote double_quote s) = Some (PDict items) ->
  forallb is_number_obj (map snd items) = true ->
  exists v, parse_time_spent json_loads (Text s) = Returns v
            /\ cell_of_value v = Num (sum (map real_of_obj (map snd items))).
Proof.
  intros E H. destruct (py_sum_numbers _ H (NInt 0)) as [n [En Hn]].
  exists (value_of_number n). unfold parse_time_spent, parse_time_spent_try.
  simpl. rewrite E. simpl. rewrite En. simpl. split; [reflexivity|].
  rewrite cell_of_number, Hn. simpl. f_equal. lra.
Qed.

Lemma parse_not_text (c : cell) :
  (forall s, c <> Text s) -> parse_time_spent json_loads c = Returns (VFloat NaN).
Proof.
  intros H. destruct c as [x|s|]; try reflexivity.
  exfalso. apply (H s). reflexivity.
Qed.

Lemma parse_decode_error (s : string) :
  json_loads (replace single_quote double_quote s) = None ->
  parse_time_spent json_loads (Text s) = Returns (VFloat NaN).
Proof.
  intros E. unfold parse_time_spent, parse_time_spent_try. simpl. rewrite E.
  reflexivity.
Qed.

Lemma parse_not_dict (s : string) (obj : pyobj) :
  json_loads (replace single_quote double_quote s) = Some obj ->
  (forall items, obj <> PDict items) ->
  parse_time_spent json_loads (Text s) = Returns (VFloat NaN).
Proof.
  intros E H. unfold parse_time_spent, parse_time_spent_try. simpl. rewrite E.
  destruct obj; try reflexivity. exfalso. apply (H items). reflexivity.
Qed.

Lemma parse_dict_not_nan (s : string) (items : list (string * pyobj)) :
  json_loads (replace single_quote double_quote s) = Some (PDict items) ->
  parse_time_spent json_loads (Text s) <> Returns (VFloat NaN).
Proof.
  intros E. unfold parse_time_spent, parse_time_spent_try. simpl. rewrite E.
  simpl. destruct (py_sum (NInt 0) (map snd items)) as [n|e] eqn:Es; simpl.
  - intros H. apply (value_of_number_not_nan n). congruence.
  - rewrite (py_sum_error _ _ _ Es). discriminate.
Qed.

End Parser.

(** ** Rows with a missing value *)

Lemma getitem_drop_row (i : nat) (df : DataFrame) (name : string) :
  getitem (drop_row i df) name
  = s <- getitem df name ;; Returns (remove_at i s).
Proof.
  induction df as [|[n c] df IH]; simpl; [reflexivity|].
  destruct (String.eqb n name); [reflexivity|exact IH].
Qed.

Lemma remove_at_map {A B : Type} (f : A -> B) (i : nat) (l : list A) :
  remove_at i (map f l) = map f (remove_at i l).
Proof.
  revert i. induction l as [|x l IH]; intros [|i]; simpl; try reflexivity.
  rewrite IH. reflexivity.
Qed.

(** Removing a row whose value is missing leaves the selected rows
    unchanged. *)
Lemma dropna_remove_missing (i : nat) (mask : list bool) (col : Series) :
  nth_error col i = Some NA ->
  dropna (boolean_index (remove_at i mask) (remove_at i col))
  = dropna (boolean_index mask col).
Proof.
  revert mask col. induction i as [|i IH]; intros mask [|c col]; simpl;
    try discriminate.
  - intros H. injection H as ->. destruct mask as [|[] mask]; reflexivity.
  - intros H. destruct mask as [|m mask]; simpl; [reflexivity|].
    destruct m; simpl; rewrite (IH mask col H); reflexivity.
Qed.

Lemma group_of_drop_row (i : nat) (df : DataFrame) (label metric : string)
  (col : Series) :
  getitem df metric = Returns col ->
  nth_error col i = Some NA ->
  group_of (drop_row i df) label metric = group_of df label metric.
Proof.
  intros Hcol Hi. unfold group_of. rewrite !getitem_drop_row, Hcol.
  destruct (getitem df "Group") as [g|e]; simpl; [|reflexivity].
  rewrite <- remove_at_map, (dropna_remove_missing i _ col Hi). reflexivity.
Qed.

Lemma run_t_test_drop_row student_sf norm_sf (i : nat) (df : DataFrame)
  (metric : string) (alpha : R) (col : Series) :
  getitem df metric = Returns col ->
  nth_error col i = Some NA ->
  run_t_test student_sf norm_sf (drop_row i df) metric alpha
  = run_t_test student_sf norm_sf df metric alpha.
Proof.
  intros Hcol Hi. unfold run_t_test.
  rewrite !(group_of_drop_row i df _ metric col Hcol Hi). reflexivity.
Qed.

Lemma run_mann_whitney_drop_row norm_sf (i : nat) (df : DataFrame)
  (metric : string) (alpha : R) (col : Series) :
  getitem df metric = Returns col ->
  nth_error col i = Some NA ->
  run_mann_whitney_test norm_sf (drop_row i df) metric alpha
  = run_mann_whitney_test norm_sf df metric alpha.
Proof.
  intros Hcol Hi. unfold run_mann_whitney_test.
  rewrite !(group_of_drop_row i df _ metric col Hcol Hi). reflexivity.
Qed.

(** [apply] works row by row. *)
Lemma apply_nth (f : cell -> outcome value) (col tot : Series) (i : nat) (c : cell) :
  apply f col = Returns tot ->
  nth_error col i = Some c ->
  exists v, f c = Returns v /\ nth_error tot i = Some (cell_of_value v).
Proof.
  revert tot i. induction col as [|c0 col IH]; intros tot i; simpl.
  - intros _ H. destruct i; discriminate.
  - destruct (f c0) as [v0|] eqn:E0; simpl; [|discriminate].
    destruct (apply f col) as [rest|] eqn:Er; simpl; [|discriminate].
    intros H. injection H as <-. destruct i as [|i]; simpl.
    + intros H. injection H as <-. exists v0. split; [exact E0|reflexivity].
    + intros H. apply (IH rest i eq_refl H).
Qed.

Lemma getitem_setitem (df : DataFrame) (name : string) (s : Series) :
  getitem (setitem df name s) name = Returns s.
Proof.
  induction df as [|[n c] df IH]; simpl.
  - rewrite String.eqb_refl. reflexivity.
  - destruct (String.eqb n name) eqn:E; simpl; rewrite E; [reflexivity|exact IH].
Qed.

(** The derived column holds, row by row, what the parser returns. *)
Lemma add_total_time_spent_rows (json_loads : string -> option pyobj)
  (df df' : DataFrame) (col : Series) (i : nat) (c : cell) :
  add_total_time_spent json_loads df = Returns df' ->
  getitem df "Time_Spent" = Returns col ->
  nth_error col i = Some c ->
  exists v tot,
    parse_time_spent json_loads c = Returns v
    /\ getitem df' "Total_Time_Spent" = Returns tot
    /\ nth_error tot i = Some (cell_of_value v).
Proof.
  unfold add_total_time_spent. intros H Hcol Hi. rewrite Hcol in H. cbn [bind] in H.
  destruct (apply (parse_time_spent json_loads) col) as [tot|] eqn:E; [|discriminate].
  cbn [bind] in H. injection H as <-.
  destruct (apply_nth _ _ _ _ _ E Hi) as [v [Hv Ht]].
  exists v, tot. split; [exact Hv|]. split; [apply getitem_setitem|exact Ht].
Qed.

Example breakdown_frame_totals :
  exists df',
    add_total_time_spent sample_json_loads breakdown_frame = Returns df'
    /\ getitem df' "Total_Time_Spent" = Returns [Num 7; Num 0; NA; NA; Num 0].
Proof. eexists. split; reflexivity. Qed.

(** Both runners leave out a row whose metric is missing: their result
    is the one for the frame without that row. *)
Lemma runners_drop_missing_rows student_sf norm_sf (i : nat) (df : DataFrame)
  (metric : string) (alpha : R) (col : Series) :
  getitem df metric = Returns col ->
  nth_error col i = Some NA ->
  run_t_test student_sf norm_sf (drop_row i df) metric alpha
  = run_t_test student_sf norm_sf df metric alpha
  /\ run_mann_whitney_test norm_sf (drop_row i df) metric alpha
     = run_mann_whitney_test norm_sf df metric alpha.
Proof.
  intros Hcol Hi. split.
  - apply (run_t_test_drop_row _ _ _ _ _ _ col); assumption.
  - apply (run_mann_whitney_drop_row _ _ _ _ _ col); assumption.
Qed.

(** C10 (amended).  A text that decodes to the empty dictionary totals
    the integer 0, a cell that [dropna] keeps.  The total is NaN exactly
    when the breakdown is not a text, or does not decode, or decodes to
    something other than a dictionary (a list, a number, a text,
    [null]). *)
Theorem C10_empty_breakdown_and_nan_cases :
  forall (json_loads : string -> option pyobj),
    (forall s : string,
        json_loads (replace single_quote double_quote s) = Some (PDict []) ->
        parse_time_spent json_loads (Text s) = Returns (VInt 0)
        /\ cell_of_value (VInt 0) = Num 0
        /\ dropna [cell_of_value (VInt 0)] = [Num 0])
    /\ (forall c : cell,
          parse_time_spent json_loads c = Returns (VFloat NaN) <->
          ((forall s, c <> Text s)
           \/ exists s, c = Text s
                /\ (json_loads (replace single_quote double_quote s) = None
                    \/ exists obj,
                         json_loads (replace single_quote double_quote s) = Some obj
                         /\ forall items, obj <> PDict items))).
Proof.
  intros json_loads. split.
  - intros s E. split; [|split; reflexivity].
    unfold parse_time_spent, parse_time_spent_try. simpl. rewrite E. reflexivity.
  - intros c. split.
    + intros H. destruct c as [x|s|]; try (left; intros s'; discriminate).
      right. exists s. split; [reflexivity|].
      destruct (json_loads (replace single_quote double_quote s)) as [obj|] eqn:E;
        [|left; reflexivity].
      right. exists obj. split; [reflexivity|].
      intros items ->. apply (parse_dict_not_nan json_loads s items E H).
    + intros [H|[s [-> [E|[obj [E H]]]]]].
      * apply parse_not_text, H.
      * apply parse_decode_error, E.
      * apply (parse_not_dict json_loads s obj E H).
Qed.

(** The amended C10 at the empty dictionary. *)
Lemma C10_empty_breakdown_witness :
  parse_time_spent sample_json_loads (Text "{}") = Returns (VInt 0)
  /\ cell_of_value (VInt 0) = Num 0
  /\ dropna [cell_of_value (VInt 0)] = [Num 0].
Proof.
  apply (proj1 (C10_empty_breakdown_and_nan_cases sample_json_loads) "{}").
  reflexivity.
Defined.

(** C10 fails as stated: the text of the empty array is a text, decodes
    without error to an empty structure, and totals NaN. *)
Lemma C10_counterexample_empty_array :
  sample_json_loads (replace single_quote double_quote "[]") = Some (PList [])
  /\ parse_time_spent sample_json_loads (Text "[]") = Returns (VFloat NaN).
Proof. split; reflexivity. Qed.

(** ** Arithmetic in binary64 *)

Local Open Scope Z_scope.












Lemma SFcompare_refl_finite (s : bool) (m : positive) (e : Z) :
  SFcompare (S754_finite s m e) (S754_finite s m e) = Some Eq.
Proof.
  simpl. rewrite Z.compare_refl.
  change (Pos.compare_cont Eq m m) with (Pos.compare m m).
  rewrite Pos.compare_refl. destruct s; reflexivity.
Qed.

Lemma is_nan_spec (x : float64) :
  PrimFloat.is_nan x = match Prim2SF x with S754_nan => true | _ => false end.
Proof.
  unfold PrimFloat.is_nan. rewrite FloatAxioms.eqb_spec. unfold SFeqb.
  destruct (Prim2SF x) as [s|s| |s m e].
  - reflexivity.
  - destruct s; reflexivity.
  - reflexivity.
  - rewrite SFcompare_refl_finite. reflexivity.
Qed.

Lemma is_nan_eq (x : float64) : PrimFloat.is_nan x = true -> x = PrimFloat.nan.
Proof.
  rewrite is_nan_spec. intros H. apply Prim2SF_inj.
  destruct (Prim2SF x); try discriminate. reflexivity.
Qed.




(** *** The operations at the special values *)













Local Close Scope Z_scope.

(** ** The runners in binary64 *)

Local Open Scope float_scope.

Section Binary64Runners.

Variables (L : library) (metric : string) (alpha : float64) (a b : list float64).





End Binary64Runners.






(** A mean that is zero gives NaN; a mean that rounding leaves at
    1.85e-17 gives a percent change above 2^62; and next to the smallest
    number above zero the quotient overflows to an infinity. *)
Example percent_change_around_zero :
  percent_change64 (mean64 [1; - 1]) (mean64 [1; 2]) = PrimFloat.nan
  /\ (0x1p+62 <? percent_change64 (mean64 [tenth; fifth; - three_tenths])
                   (mean64 [1; 2])) = true
  /\ percent_change64 0x1p-1074 1 = PrimFloat.infinity.
Proof. repeat split; vm_compute; reflexivity. Qed.




(** *** Groups whose means coincide *)

Section EqualMeans.

Variables (L : library) (metric : string) (alpha : float64) (a b : list float64).
Hypothesis Hmean : pd_mean L a = pd_mean L b.
Hypothesis Hfin : PrimFloat.is_finite (pd_mean L a) = true.
Hypothesis Hnp : np_mean L a = np_mean L b.
Hypothesis Hnpfin : PrimFloat.is_finite (np_mean L a) = true.




End EqualMeans.





(** Two groups [5, 5] in binary64, as in the exact arithmetic: the
    variances and the standard error are zero, the statistic and the
    p-value are NaN and the effect size is the integer 0. *)
Example constant_groups_in_binary64 :
  run_t_test64 short_series "Score" five_percent [5; 5] [5; 5]
  = [("metric", SStr "Score"); ("test", SStr "t-test");
     ("group_a_mean", SFloat 5); ("group_b_mean", SFloat 5);
     ("difference", SFloat 0); ("percent_change", SFloat 0);
     ("t_statistic", SFloat PrimFloat.nan); ("p_value", SFloat PrimFloat.nan);
     ("effect_size", SInt 0); ("significant", SBool false);
     ("sample_size_a", SInt 2); ("sample_size_b", SInt 2)].
Proof. vm_compute. reflexivity. Qed.

(** The scenario of C1 in binary64: the same means, difference and
    percent change (to two decimals) as in the exact arithmetic. *)
Example scenario_in_binary64 :
  lookup (run_t_test64 short_series "Score" five_percent [10; 12] [20; 22])
    "group_a_mean" = Some (SFloat 11)
  /\ lookup (run_t_test64 short_series "Score" five_percent [10; 12] [20; 22])
       "group_b_mean" = Some (SFloat 21)
  /\ lookup (run_t_test64 short_series "Score" five_percent [10; 12] [20; 22])
       "difference" = Some (SFloat 10)
  /\ lookup (run_t_test64 short_series "Score" five_percent [10; 12] [20; 22])
       "percent_change" = Some (SFloat 0x1.6ba2e8ba2e8bap+6).
Proof. vm_compute. repeat split. Qed.

Local Close Scope float_scope.

(** ** The general statements at concrete frames *)

Lemma lone_frame_names : NoDup (map fst lone_frame).
Proof.
  repeat constructor; simpl; intros H; decompose [or] H; try discriminate; assumption.
Qed.

(** C3 at the frame with one value in group A and two in group B. *)
Lemma C3_insufficient_data_witness :
  run_t_test student_sf_two norm_sf_at_zero lone_frame "Score" (5 / 100)
  = Returns (t_test_error "Score")
  /\ run_mann_whitney_test norm_sf_at_zero lone_frame "Score" (5 / 100)
     = Returns (mann_whitney_report norm_sf_at_zero "Score" (5 / 100) [4] [6; 8])
  /\ contains (mann_whitney_report norm_sf_at_zero "Score" (5 / 100) [4] [6; 8])
       "error" = false.
Proof.
  destruct (C3_insufficient_data_thresholds student_sf_two norm_sf_at_zero
              lone_frame "Score" (5 / 100)
              [Text "A"; Text "B"; Text "B"] [Num 4; Num 6; Num 8]
              eq_refl eq_refl) as [_ [_ H]].
  destruct (H eq_refl eq_refl (le_S _ _ (le_n 1))) as [Ht [Hm [Hc _]]].
  split; [exact Ht|]. split; [exact Hm|exact Hc].
Defined.

(** C9 at the same frame: the t-test entry has the three keys. *)
Lemma C9_error_key_witness :
  keys (t_test_error "Score") = ["metric"; "test"; "error"]
  /\ contains (t_test_error "Score") "significant" = false.
Proof.
  destruct (proj1 (C9_error_key_discriminates student_sf_two norm_sf_at_zero
                     lone_frame "Score" (5 / 100) (t_test_error "Score"))
              eq_refl) as [g [col [_ [_ [_ [H _]]]]]].
  apply H. reflexivity.
Defined.

(** C6 at the four-row scenario. *)
Lemma C6_swap_witness :
  exists (x : R) (e : value),
    field (run_t_test student_sf_two norm_sf_at_zero scenario_frame "Score" (5 / 100))
      "difference" = Some (VFloat (Fin x))
    /\ field (run_t_test student_sf_two norm_sf_at_zero (swap_groups scenario_frame)
                "Score" (5 / 100)) "difference" = Some (VFloat (Fin (- x)))
    /\ field (run_t_test student_sf_two norm_sf_at_zero scenario_frame "Score" (5 / 100))
         "effect_size" = Some e
    /\ field (run_t_test student_sf_two norm_sf_at_zero (swap_groups scenario_frame)
                "Score" (5 / 100)) "effect_size" = Some e
    /\ (e = VInt 0 \/ exists y, e = VFloat (Fin y) /\ 0 <= y).
Proof.
  exact (C6_swap_flips_difference_keeps_effect_size student_sf_two norm_sf_at_zero
           scenario_frame "Score" (5 / 100)
           [Text "A"; Text "A"; Text "B"; Text "B"]
           [Num 10; Num 12; Num 20; Num 22]
           eq_refl eq_refl eq_refl (le_n 2) (le_n 2)).
Defined.

(** C7 at the frame with an identifier, a score and a text column: the
    score is the only metric, and it has one entry in each list although
    its t-test entry is an error. *)
Lemma C7_aggregator_witness :
  exists r,
    analyze_all_metrics student_sf_two norm_sf_at_zero lone_frame (5 / 100)
    = Returns r
    /\ map metric_of (t_test_results r) = [Some (VStr "Score")]
    /\ map metric_of (mann_whitney_results r) = [Some (VStr "Score")].
Proof.
  destruct (C7_aggregator_alignment student_sf_two norm_sf_at_zero lone_frame
              (5 / 100) [Text "A"; Text "B"; Text "B"] lone_frame_names eq_refl)
    as [r [E [_ [_ [T [W _]]]]]].
  exists r. split; [exact E|]. split; [exact T|exact W].
Defined.

(** * Further properties of the code *)

(** ** Saving the results *)

Section ObjInduction.

Variable P : obj -> Prop.
Hypothesis Hdict :
  forall items, Forall (fun kv => P (snd kv)) items -> P (ODict items).
Hypothesis Hlist : forall items, Forall P items -> P (OList items).
Hypothesis Htuple : forall items, Forall P items -> P (OTuple items).
Hypothesis Hnpint : forall z, P (ONpInt z).
Hypothesis Hnpfloat : forall f, P (ONpFloat f).
Hypothesis Hndarray : forall a, P (ONdarray a).
Hypothesis Hnpbool : forall b, P (ONpBool b).
Hypothesis Hnpother : forall kind, P (ONpOther kind).
Hypothesis Hint : forall z, P (OInt z).
Hypothesis Hfloat : forall f, P (OFloat f).
Hypothesis Hbool : forall b, P (OBool b).
Hypothesis Hstr : forall s, P (OStr s).
Hypothesis Hnone : P ONone.

Fixpoint obj_induction (o : obj) : P o :=
  match o with
  | ODict items =>
      Hdict items
        ((fix go (l : list (string * obj)) : Forall (fun kv => P (snd kv)) l :=
            match l with
            | [] => Forall_nil _
            | kv :: l' =>
                Forall_cons kv
                  (match kv as kv0 return P (snd kv0) with
                   | (_, v) => obj_induction v
                   end)
                  (go l')
            end) items)
  | OList items =>
      Hlist items
        ((fix go (l : list obj) : Forall P l :=
            match l with
            | [] => Forall_nil _
            | v :: l' => Forall_cons v (obj_induction v) (go l')
            end) items)
  | OTuple items =>
      Htuple items
        ((fix go (l : list obj) : Forall P l :=
            match l with
            | [] => Forall_nil _
            | v :: l' => Forall_cons v (obj_induction v) (go l')
            end) items)
  | ONpInt z => Hnpint z
  | ONpFloat f => Hnpfloat f
  | ONdarray a => Hndarray a
  | ONpBool b => Hnpbool b
  | ONpOther kind => Hnpother kind
  | OInt z => Hint z
  | OFloat f => Hfloat f
  | OBool b => Hbool b
  | OStr s => Hstr s
  | ONone => Hnone
  end.

End ObjInduction.

Section NdarrayInduction.

Variable P : ndarray -> Prop.
Hypothesis Hint : forall z, P (NdInt z).
Hypothesis Hfloat : forall f, P (NdFloat f).
Hypothesis Hbool : forall b, P (NdBool b).
Hypothesis Haxis : forall items, Forall P items -> P (NdAxis items).

Fixpoint ndarray_induction (a : ndarray) : P a :=
  match a with
  | NdInt z => Hint z
  | NdFloat f => Hfloat f
  | NdBool b => Hbool b
  | NdAxis items =>
      Haxis items
        ((fix go (l : list ndarray) : Forall P l :=
            match l with
            | [] => Forall_nil _
            | v :: l' => Forall_cons v (ndarray_induction v) (go l')
            end) items)
  end.

End NdarrayInduction.

Lemma forallb_map_Forall {A B : Type} (f : A -> B) (p : B -> bool) (l : list A) :
  Forall (fun x => p (f x) = true) l -> forallb p (map f l) = true.
Proof. induction 1; simpl; [reflexivity|]. rewrite H, IHForall. reflexivity. Qed.

Lemma map_id_Forall {A : Type} (f : A -> A) (l : list A) :
  Forall (fun x => f x = x) l -> map f l = l.
Proof. induction 1; simpl; [reflexivity|]. rewrite H, IHForall. reflexivity. Qed.

Lemma tolist_native (a : ndarray) : native (tolist a) = true.
Proof.
  induction a using ndarray_induction; simpl; try reflexivity.
  apply forallb_map_Forall. assumption.
Qed.

Lemma tolist_fixed (a : ndarray) : convert_np (tolist a) = tolist a.
Proof.
  induction a using ndarray_induction; simpl; try reflexivity.
  f_equal. rewrite map_map. apply map_ext_Forall. assumption.
Qed.

Lemma convert_np_convertible (o : obj) :
  convertible o = true -> native (convert_np o) = true.
Proof.
  induction o using obj_induction; simpl; intros Ht;
    try reflexivity; try discriminate.
  - rewrite forallb_forall in Ht. apply forallb_map_Forall.
    rewrite Forall_forall in *. intros [k v] Hin. simpl.
    apply (H (k, v) Hin). apply (Ht (k, v) Hin).
  - rewrite forallb_forall in Ht. apply forallb_map_Forall.
    rewrite Forall_forall in *. intros v Hin. apply (H v Hin), Ht, Hin.
  - apply tolist_native.
Qed.

(** X1.  On an object built from dictionaries, lists, native values,
    numpy arrays and numpy scalars of the types its [isinstance] tests
    list, [convert_np] returns an object with no numpy scalar or array
    left at any depth.  The restriction is needed: a numpy scalar of
    another type ([complex128], [longdouble], ...) and a tuple, whatever
    it holds, come back as they are. *)
Theorem convert_np_native :
  (forall o : obj, convertible o = true -> native (convert_np o) = true)
  /\ (forall kind : string,
         convert_np (ONpOther kind) = ONpOther kind
         /\ native (convert_np (ONpOther kind)) = false)
  /\ (forall items : list obj, convert_np (OTuple items) = OTuple items).
Proof.
  split; [exact convert_np_convertible|].
  split; [intros kind; split; reflexivity|intros items; reflexivity].
Qed.

Lemma convert_np_witness_input :
  convertible (ODict [("p_value", ONpFloat NaN);
                      ("sizes", ONdarray (NdAxis [NdInt 2; NdInt 3]))]) = true.
Proof. reflexivity. Defined.

Lemma convert_np_native_witness :
  native (convert_np (ODict [("p_value", ONpFloat NaN);
                             ("sizes", ONdarray (NdAxis [NdInt 2; NdInt 3]))]))
  = true.
Proof. apply (proj1 convert_np_native). exact convert_np_witness_input. Defined.

(** X2.  [convert_np] is idempotent: converting a converted object
    changes nothing (tuples included, which it never enters). *)
Theorem convert_np_idempotent :
  forall o : obj, convert_np (convert_np o) = convert_np o.
Proof.
  induction o using obj_induction; simpl; try reflexivity.
  - f_equal. rewrite map_map. apply map_ext_Forall.
    rewrite Forall_forall in *. intros [k v] Hin. f_equal. apply (H (k, v) Hin).
  - f_equal. rewrite map_map. apply map_ext_Forall. assumption.
  - apply tolist_fixed.
Qed.

(** X3.  [convert_np] returns a native object unchanged: keys, order and
    values of a results document that holds no numpy value survive. *)
Theorem convert_np_native_fixed :
  forall o : obj, native o = true -> convert_np o = o.
Proof.
  induction o using obj_induction; simpl; intros Hn;
    try reflexivity; try discriminate.
  - f_equal. rewrite forallb_forall in Hn. apply map_id_Forall.
    rewrite Forall_forall in *. intros [k v] Hin. f_equal.
    apply (H (k, v) Hin). apply (Hn (k, v) Hin).
  - f_equal. rewrite forallb_forall in Hn. apply map_id_Forall.
    rewrite Forall_forall in *. intros v Hin. apply (H v Hin), Hn, Hin.
Qed.

Lemma convert_np_native_fixed_witness :
  convert_np (ODict [("metric", OStr "Score"); ("significant", OBool true)])
  = ODict [("metric", OStr "Score"); ("significant", OBool true)].
Proof. apply convert_np_native_fixed. reflexivity. Defined.

(** ** The significant findings *)

(** X4.  A dictionary returned by either runner passes the filter
    ['significant' in r and r['significant']] exactly when it has no
    [error] key and its p-value is below the level; a dictionary that
    passes has the keys [metric], [p_value] and [percent_change] the
    printing loops read. *)
Theorem significant_filter_keeps_verdicts :
  forall (student_sf : R -> R -> R) (norm_sf : R -> R)
         (df : DataFrame) (metric : string) (alpha : R) (d : dict),
    run_t_test student_sf norm_sf df metric alpha = Returns d
    \/ run_mann_whitney_test norm_sf df metric alpha = Returns d ->
    (is_significant d = true <->
     contains d "error" = false
     /\ exists p, get d "p_value" = Some (VFloat p) /\ flt p alpha = true)
    /\ (is_significant d = true ->
        get d "metric" = Some (VStr metric)
        /\ contains d "p_value" = true
        /\ contains d "percent_change" = true).
Proof.
  intros student_sf norm_sf df metric alpha d [H|H].
  - unfold run_t_test in H.
    destruct (group_of df "A" metric) as [ga|]; [|discriminate].
    destruct (group_of df "B" metric) as [gb|]; [|discriminate].
    cbn [bind] in H.
    destruct ((len ga <? 2)%nat || (len gb <? 2)%nat)%bool.
    + injection H as <-. split; [split|]; try discriminate.
      intros [E _]. discriminate.
    + destruct (to_numpy ga) as [a|]; [|discriminate].
      destruct (to_numpy gb) as [b|]; [|discriminate].
      cbn [bind] in H. destruct (ttest_ind student_sf norm_sf a b) as [t p].
      injection H as <-. split; [split|].
      * intros Hs. split; [reflexivity|]. exists p. split; [reflexivity|exact Hs].
      * intros [_ [p' [E Hp]]]. injection E as <-. exact Hp.
      * intros _. repeat split.
  - unfold run_mann_whitney_test in H.
    destruct (group_of df "A" metric) as [ga|]; [|discriminate].
    destruct (group_of df "B" metric) as [gb|]; [|discriminate].
    cbn [bind] in H.
    destruct ((len ga <? 1)%nat || (len gb <? 1)%nat)%bool.
    + injection H as <-. split; [split|]; try discriminate.
      intros [E _]. discriminate.
    + destruct (to_numpy ga) as [a|]; [|discriminate].
      destruct (to_numpy gb) as [b|]; [|discriminate].
      cbn [bind] in H. destruct (mannwhitneyu norm_sf a b) as [u p].
      injection H as <-. split; [split|].
      * intros Hs. split; [reflexivity|]. exists p. split; [reflexivity|exact Hs].
      * intros [_ [p' [E Hp]]]. injection E as <-. exact Hp.
      * intros _. repeat split.
Qed.

Lemma significant_filter_witness :
  is_significant (t_test_error "Score") = true <->
  contains (t_test_error "Score") "error" = false
  /\ exists p, get (t_test_error "Score") "p_value" = Some (VFloat p)
               /\ flt p (5 / 100) = true.
Proof.
  apply (significant_filter_keeps_verdicts student_sf_two norm_sf_at_zero
           lone_frame "Score" (5 / 100) (t_test_error "Score")).
  left. reflexivity.
Defined.

(** X5.  When the mean of group A is zero, the finding printed for a
    t-test result reads "lower" and "worse" whatever the metric and
    whatever the mean of group B, because the percent change is NaN and
    every comparison with NaN is false. *)
Theorem zero_baseline_reads_lower_and_worse :
  forall (student_sf : R -> R -> R) (norm_sf : R -> R)
         (df : DataFrame) (metric : string) (alpha : R) (g col : Series),
    getitem df "Group" = Returns g ->
    getitem df metric = Returns col ->
    is_number_dtype col = true ->
    (2 <= len (sample g col "A"))%nat ->
    (2 <= len (sample g col "B"))%nat ->
    mean (sample g col "A") = 0 ->
    exists d,
      run_t_test student_sf norm_sf df metric alpha = Returns d
      /\ get d "difference" = Some (VFloat (Fin (mean (sample g col "B"))))
      /\ finding d = Some (replace "_"%char " "%char metric, "lower", "worse").
Proof.
  intros student_sf norm_sf df metric alpha g col Hg Hcol Hnum Ha Hb Hz.
  eexists. split; [apply (run_t_test_sufficient _ _ _ _ _ _ _ Hg Hcol Hnum Ha Hb)|].
  unfold finding. cbn [t_test_report get String.eqb Ascii.eqb Bool.eqb].
  rewrite Hz. destruct (Req_dec_T 0 0) as [_|N]; [|exfalso; apply N; reflexivity].
  split; [do 3 f_equal; lra|].
  unfold interpretation, direction. cbn [flt fgt].
  destruct (_ || _ || _)%bool; reflexivity.
Qed.

Lemma zero_baseline_witness :
  exists d,
    run_t_test student_sf_two norm_sf_at_zero zero_baseline_frame
      "Early_Exit_Rate" (5 / 100) = Returns d
    /\ get d "difference" = Some (VFloat (Fin (mean [9; 11])))
    /\ finding d = Some ("Early Exit Rate", "lower", "worse").
Proof.
  apply (zero_baseline_reads_lower_and_worse student_sf_two norm_sf_at_zero
           zero_baseline_frame "Early_Exit_Rate" (5 / 100)
           [Text "A"; Text "A"; Text "B"; Text "B"]
           [Num (-1); Num 1; Num 9; Num 11]
           eq_refl eq_refl eq_refl (le_n 2) (le_n 2)).
  change (mean [-1; 1] = 0). rewrite mean_pair. lra.
Defined.

(** ** The grid of subplots *)

Lemma ceil_sqrt_spec (n : nat) :
  (1 <= n ->
   1 <= ceil_sqrt n
   /\ n <= ceil_sqrt n * ceil_sqrt n
   /\ (ceil_sqrt n - 1) * (ceil_sqrt n - 1) < n)%nat.
Proof.
  intros Hn. unfold ceil_sqrt.
  pose proof (Nat.sqrt_spec n (Nat.le_0_l n)) as [Hlo Hhi]. simpl in Hhi.
  destruct (Nat.eqb_spec (Nat.sqrt n * Nat.sqrt n) n) as [E|N].
  - repeat split; nia.
  - repeat split; nia.
Qed.

Lemma ceil_div_spec (n c : nat) :
  (1 <= n -> 1 <= c ->
   n <= ceil_div n c * c /\ (ceil_div n c - 1) * c < n)%nat.
Proof.
  intros Hn Hc. unfold ceil_div.
  pose proof (Nat.div_mod_eq (n + c - 1) c) as E.
  pose proof (Nat.mod_upper_bound (n + c - 1) c ltac:(lia)) as Hm.
  split; nia.
Qed.

Lemma grid_dimensions_spec (n : nat) :
  (1 <= n)%nat ->
  exists r c,
    grid_dimensions n = Layout r c
    /\ (1 <= r /\ r <= c)%nat
    /\ (n <= r * c)%nat
    /\ ((r - 1) * c < n)%nat
    /\ ((c - 1) * (c - 1) < n /\ n <= c * c)%nat.
Proof.
  intros Hn.
  destruct (ceil_sqrt_spec n Hn) as [Hc1 [Hc2 Hc3]].
  unfold grid_dimensions.
  destruct (Nat.eqb_spec (ceil_sqrt n) 0) as [E|_]; [lia|].
  exists (ceil_div n (ceil_sqrt n)), (ceil_sqrt n). split; [reflexivity|].
  destruct (ceil_div_spec n (ceil_sqrt n) Hn Hc1) as [H1 H2].
  set (c := ceil_sqrt n) in *. set (r := ceil_div n c) in *.
  repeat split; try assumption; nia.
Qed.

(** X6.  With no metric [create_metrics_overview] raises
    [ZeroDivisionError]; with one metric at least its grid has room for
    every metric, has no empty row, has at least as many columns as
    rows, and its number of columns is the least whose square reaches
    the number of metrics. *)
Theorem grid_dimensions_fit :
  grid_dimensions 0 = ZeroDivisionError
  /\ forall n : nat,
       (1 <= n)%nat ->
       exists r c,
         grid_dimensions n = Layout r c
         /\ (1 <= r /\ r <= c)%nat
         /\ (n <= r * c)%nat
         /\ ((r - 1) * c < n)%nat
         /\ ((c - 1) * (c - 1) < n /\ n <= c * c)%nat.
Proof. split; [reflexivity|exact grid_dimensions_spec]. Qed.

Lemma grid_dimensions_fit_witness :
  exists r c,
    grid_dimensions 5 = Layout r c
    /\ (1 <= r /\ r <= c)%nat
    /\ (5 <= r * c)%nat
    /\ ((r - 1) * c < 5)%nat
    /\ ((c - 1) * (c - 1) < 5 /\ 5 <= c * c)%nat.
Proof. apply (proj2 grid_dimensions_fit 5%nat). repeat constructor. Defined.

(** X7.  In the grid of [n] metrics every metric gets a cell inside the
    grid (rows and columns count from 1), and no two metrics share a
    cell. *)
Theorem subplot_positions_inside_and_distinct :
  forall n r c i j : nat,
    grid_dimensions n = Layout r c ->
    (i < n)%nat -> (j < n)%nat ->
    (1 <= fst (subplot_position c i) <= r)%nat
    /\ (1 <= snd (subplot_position c i) <= c)%nat
    /\ (subplot_position c i = subplot_position c j -> i = j).
Proof.
  intros n r c i j Hgrid Hi Hj.
  assert (Hn : (1 <= n)%nat) by lia.
  destruct (grid_dimensions_spec n Hn) as [r' [c' [E [[Hr1 Hrc] [Hfit _]]]]].
  rewrite E in Hgrid. injection Hgrid as -> ->.
  assert (Hc : (1 <= c)%nat) by lia.
  unfold subplot_position. cbn [fst snd].
  pose proof (Nat.mod_upper_bound i c ltac:(lia)) as Hmi.
  assert (Hdi : (i / c < r)%nat) by (apply Nat.Div0.div_lt_upper_bound; nia).
  split; [lia|]. split; [lia|].
  intros H. injection H as Hd Hm.
  rewrite (Nat.div_mod_eq i c), (Nat.div_mod_eq j c).
  assert (i / c = j / c)%nat by lia. assert (i mod c = j mod c)%nat by lia.
  congruence.
Qed.

Lemma subplot_positions_witness :
  (1 <= fst (subplot_position 3 4) <= 2)%nat
  /\ (1 <= snd (subplot_position 3 4) <= 3)%nat
  /\ (subplot_position 3 4 = subplot_position 3 1 -> 4%nat = 1%nat).
Proof.
  apply (subplot_positions_inside_and_distinct 5 2 3 4 1 eq_refl); repeat constructor.
Defined.

(** ** The percent change of the figures against the runner's *)

Lemma figure_pct_change_cases (ma mb : R) :
  (0 < ma -> percent_change ma mb = Fin ((mb - ma) / ma * 100)
             /\ figure_pct_change ma mb = VFloat (Fin ((mb - ma) / ma * 100)))
  /\ (ma < 0 -> percent_change ma mb = Fin ((mb - ma) / ma * 100)
                /\ figure_pct_change ma mb = VFloat (Fin (- ((mb - ma) / ma * 100))))
  /\ (ma = 0 -> percent_change ma mb = NaN /\ figure_pct_change ma mb = VInt 0).
Proof.
  unfold percent_change, figure_pct_change.
  destruct (Req_dec_T ma 0) as [E|N]; split; [|split| |split]; intros H;
    try (exfalso; lra); try (split; reflexivity).
  - rewrite Rabs_pos_eq by lra. split; reflexivity.
  - rewrite Rabs_left by lra. split; [reflexivity|]. do 2 f_equal. field. lra.
Qed.

(** X8.  For a t-test result without error, the percent change the
    table and the chart of the figures compute from its two means
    equals the result's [percent_change] when the mean of group A is
    positive, is its opposite when that mean is negative, and is the
    integer 0 where the result has NaN (a zero mean). *)
Theorem figure_pct_change_against_result :
  forall (student_sf : R -> R -> R) (norm_sf : R -> R)
         (df : DataFrame) (metric : string) (alpha : R) (d : dict),
    run_t_test student_sf norm_sf df metric alpha = Returns d ->
    contains d "error" = false ->
    exists ma mb,
      get d "group_a_mean" = Some (VFloat (Fin ma))
      /\ get d "group_b_mean" = Some (VFloat (Fin mb))
      /\ (0 < ma -> get d "percent_change" = Some (figure_pct_change ma mb))
      /\ (ma < 0 ->
          exists x, get d "percent_change" = Some (VFloat (Fin x))
                    /\ figure_pct_change ma mb = VFloat (Fin (- x)))
      /\ (ma = 0 ->
          get d "percent_change" = Some (VFloat NaN)
          /\ figure_pct_change ma mb = VInt 0).
Proof.
  intros student_sf norm_sf df metric alpha d. unfold run_t_test.
  destruct (group_of df "A" metric) as [ga|]; [|discriminate].
  destruct (group_of df "B" metric) as [gb|]; [|discriminate].
  cbn [bind].
  destruct ((len ga <? 2)%nat || (len gb <? 2)%nat)%bool.
  - intros H. injection H as <-. discriminate.
  - destruct (to_numpy ga) as [a|]; [|discriminate].
    destruct (to_numpy gb) as [b|]; [|discriminate].
    cbn [bind]. destruct (ttest_ind student_sf norm_sf a b).
    intros H _. injection H as <-.
    exists (mean a), (mean b).
    destruct (figure_pct_change_cases (mean a) (mean b)) as [Hpos [Hneg Hzero]].
    cbn [get String.eqb Ascii.eqb Bool.eqb]. fold (percent_change (mean a) (mean b)).
    split; [reflexivity|]. split; [reflexivity|]. split; [|split].
    + intros H. destruct (Hpos H) as [-> ->]. reflexivity.
    + intros H. destruct (Hneg H) as [-> ->]. eexists. split; reflexivity.
    + intros H. destruct (Hzero H) as [-> ->]. split; reflexivity.
Qed.

Lemma figure_pct_change_witness :
  exists ma mb,
    get (t_test_report student_sf_two norm_sf_at_zero "Early_Exit_Rate" (5 / 100)
           [-1; 1] [9; 11]) "group_a_mean" = Some (VFloat (Fin ma))
    /\ get (t_test_report student_sf_two norm_sf_at_zero "Early_Exit_Rate" (5 / 100)
              [-1; 1] [9; 11]) "group_b_mean" = Some (VFloat (Fin mb))
    /\ (0 < ma ->
        get (t_test_report student_sf_two norm_sf_at_zero "Early_Exit_Rate" (5 / 100)
               [-1; 1] [9; 11]) "percent_change" = Some (figure_pct_change ma mb))
    /\ (ma < 0 ->
        exists x,
          get (t_test_report student_sf_two norm_sf_at_zero "Early_Exit_Rate" (5 / 100)
                 [-1; 1] [9; 11]) "percent_change" = Some (VFloat (Fin x))
          /\ figure_pct_change ma mb = VFloat (Fin (- x)))
    /\ (ma = 0 ->
        get (t_test_report student_sf_two norm_sf_at_zero "Early_Exit_Rate" (5 / 100)
               [-1; 1] [9; 11]) "percent_change" = Some (VFloat NaN)
        /\ figure_pct_change ma mb = VInt 0).
Proof.
  apply (figure_pct_change_against_result student_sf_two norm_sf_at_zero
           zero_baseline_frame "Early_Exit_Rate" (5 / 100)).
  - exact (run_t_test_sufficient student_sf_two norm_sf_at_zero zero_baseline_frame
             "Early_Exit_Rate" (5 / 100) _ _ eq_refl eq_refl eq_refl (le_n 2) (le_n 2)).
  - reflexivity.
Defined.

(** ** The rows of the report table *)

Lemma getitem_In (df : DataFrame) (name : string) (s : Series) :
  getitem df name = Returns s -> In (name, s) df.
Proof.
  induction df as [|[n c] df IH]; simpl; [discriminate|].
  destruct (String.eqb_spec n name) as [->|_].
  - intros H. injection H as <-. left. reflexivity.
  - intros H. right. apply IH, H.
Qed.

Lemma expected_metrics_intro (df : DataFrame) (m : string) (col : Series) :
  In (m, col) df -> is_number_dtype col = true -> m <> "User_ID" ->
  In m (expected_metrics df).
Proof.
  intros Hin Hnum Hm. unfold expected_metrics.
  apply in_map_iff. exists (m, col). split; [reflexivity|].
  apply filter_In. split; [exact Hin|]. simpl. rewrite Hnum. simpl.
  apply negb_true_iff, String.eqb_neq, Hm.
Qed.

Lemma find_result_aligned (Q : string -> dict -> Prop) (ms : list string)
  (ds : list dict) (m : string) :
  Forall2 (fun m' d => Q m' d /\ metric_of d = Some (VStr m')) ms ds ->
  (In m ms -> exists d, find_result ds m = Returns (Some d) /\ Q m d)
  /\ (~ In m ms -> find_result ds m = Returns None).
Proof.
  induction 1 as [|m' d ms ds [HQ Hm] _ [IHin IHout]]; simpl.
  - split; [tauto|reflexivity].
  - unfold metric_of in Hm. rewrite Hm. simpl.
    destruct (String.eqb_spec m' m) as [->|N].
    + split; [|tauto]. intros _. exists d. split; [reflexivity|exact HQ].
    + split.
      * intros [E|Hin]; [contradiction|]. apply IHin, Hin.
      * intros Hout. apply IHout. tauto.
Qed.

Section TableFacts.

Variable format_fixed : nat -> float -> string.

Lemma table_rows_of_length (rs : list dict) (ms : list string) (rows : list string) :
  table_rows_of format_fixed rs ms = Returns rows -> (len rows <= len ms)%nat.
Proof.
  revert rows. induction ms as [|m ms IH]; simpl; intros rows H.
  - injection H as <-. apply le_n.
  - destruct (find_result rs m) as [result|]; [|discriminate]. cbn [bind] in H.
    destruct (table_rows_of format_fixed rs ms) as [rows'|]; [|discriminate].
    cbn [bind] in H. injection H as <-. specialize (IH rows' eq_refl).
    unfold len in *.
    destruct result as [r|]; [destruct (has_verdict (Some r))|]; simpl; lia.
Qed.

Lemma find_result_error (rs : list dict) (m : string) (r : dict) :
  Forall (fun d => contains d "error" = true) rs ->
  find_result rs m = Returns (Some r) -> contains r "error" = true.
Proof.
  induction 1 as [|d rs Hd _ IH]; simpl; [discriminate|].
  destruct (get d "metric") as [v|]; [|discriminate].
  destruct (eq_str v m).
  - intros H. injection H as <-. exact Hd.
  - exact IH.
Qed.

Lemma table_rows_of_errors (rs : list dict) (ms : list string) (rows : list string) :
  Forall (fun d => contains d "error" = true) rs ->
  table_rows_of format_fixed rs ms = Returns rows -> rows = [].
Proof.
  intros Herr. revert rows. induction ms as [|m ms IH]; simpl; intros rows H.
  - injection H as <-. reflexivity.
  - destruct (find_result rs m) as [result|] eqn:Ef; [|discriminate]. cbn [bind] in H.
    destruct (table_rows_of format_fixed rs ms) as [rows'|]; [|discriminate].
    cbn [bind] in H. injection H as <-. rewrite (IH rows' eq_refl).
    destruct result as [r|]; [|reflexivity].
    pose proof (find_result_error rs m r Herr Ef) as E.
    unfold has_verdict. destruct r as [|kv r]; [reflexivity|].
    rewrite E. reflexivity.
Qed.

End TableFacts.

(** X9.  When the loop that prepares the report table returns, it has
    at most five rows, one per key metric at most; when every result
    carries the [error] key, or there is no result, it has none. *)
Theorem table_rows_bounded :
  forall (format_fixed : nat -> float -> string)
         (t_test_results : list dict) (rows : list string),
    table_rows format_fixed t_test_results = Returns rows ->
    (len rows <= 5)%nat
    /\ (Forall (fun d => contains d "error" = true) t_test_results -> rows = []).
Proof.
  intros format_fixed rs rows H. split.
  - apply (table_rows_of_length format_fixed rs key_metrics rows H).
  - intros Herr. apply (table_rows_of_errors format_fixed rs key_metrics rows Herr H).
Qed.

Lemma table_rows_bounded_witness :
  (len (@nil string) <= 5)%nat
  /\ (Forall (fun d => contains d "error" = true) [t_test_error "Early_Exit_Rate"] ->
      @nil string = []).
Proof.
  apply (table_rows_bounded (fun _ _ => "") [t_test_error "Early_Exit_Rate"] []).
  reflexivity.
Defined.

Lemma key_metrics_not_id (m : string) : In m key_metrics -> m <> "User_ID".
Proof.
  unfold key_metrics. simpl. intros H E. subst m.
  decompose [or] H; try discriminate; assumption.
Qed.

Section TableOfAnalysis.

Variable format_fixed : nat -> float -> string.
Variable student_sf : R -> R -> R.
Variable norm_sf : R -> R.
Variables (df : DataFrame) (alpha : R) (g : Series).
Hypothesis Hnames : NoDup (map fst df).
Hypothesis Hg : getitem df "Group" = Returns g.

(** The row of a metric, or none, by the samples it was tested on. *)
Lemma tested_samples_entry (m : string) (d : dict) :
  In m (expected_metrics df) ->
  run_t_test student_sf norm_sf df m alpha = Returns d ->
  match tested_samples df m with
  | Some (a, b) =>
      d = t_test_report student_sf norm_sf m alpha a b
      /\ has_verdict (Some d) = true
  | None => has_verdict (Some d) = false
  end.
Proof.
  intros Hin Hd.
  destruct (expected_metrics_in df m Hin) as [col [Hcol Hnum]].
  apply (getitem_in df m col Hnames) in Hcol.
  unfold tested_samples. rewrite Hg, Hcol, Hnum. cbn [andb].
  destruct (Nat.leb_spec 2 (len (sample g col "A"))) as [Ha|Ha];
    [destruct (Nat.leb_spec 2 (len (sample g col "B"))) as [Hb|Hb]|]; cbn [andb].
  - rewrite (run_t_test_sufficient _ _ _ _ _ _ _ Hg Hcol Hnum Ha Hb) in Hd.
    injection Hd as <-. split; reflexivity.
  - rewrite (run_t_test_insufficient _ _ _ _ _ _ _ Hg Hcol) in Hd.
    + injection Hd as <-. reflexivity.
    + right. rewrite (group_rows_len _ _ _ Hnum). exact Hb.
  - rewrite (run_t_test_insufficient _ _ _ _ _ _ _ Hg Hcol) in Hd.
    + injection Hd as <-. reflexivity.
    + left. rewrite (group_rows_len _ _ _ Hnum). exact Ha.
Qed.

Lemma tested_samples_none (m : string) :
  m <> "User_ID" -> ~ In m (expected_metrics df) -> tested_samples df m = None.
Proof.
  intros Hm Hout. unfold tested_samples. rewrite Hg.
  destruct (getitem df m) as [col|] eqn:Hcol; [|reflexivity].
  destruct (is_number_dtype col) eqn:Hnum; [|reflexivity].
  exfalso. apply Hout.
  apply (expected_metrics_intro df m col (getitem_In _ _ _ Hcol) Hnum Hm).
Qed.

Lemma table_rows_of_analyzed (rs : list dict) (ms : list string) :
  Forall2 (fun m d => run_t_test student_sf norm_sf df m alpha = Returns d
                      /\ metric_of d = Some (VStr m))
    (expected_metrics df) rs ->
  Forall (fun m => m <> "User_ID") ms ->
  table_rows_of format_fixed rs ms
  = Returns (flat_map
               (fun m => match tested_samples df m with
                         | Some (a, b) =>
                             [table_row format_fixed m
                                (t_test_report student_sf norm_sf m alpha a b)]
                         | None => []
                         end) ms).
Proof.
  intros Hrs. induction 1 as [|m ms Hm _ IH]; [reflexivity|].
  cbn [table_rows_of flat_map]. rewrite IH.
  destruct (find_result_aligned _ _ _ m Hrs) as [Hin Hout].
  destruct (in_dec string_dec m (expected_metrics df)) as [Hi|Ho].
  - destruct (Hin Hi) as [d [Ef Hd]]. rewrite Ef. cbn [bind].
    pose proof (tested_samples_entry m d Hi Hd) as Hentry.
    destruct (tested_samples df m) as [[a b]|].
    + destruct Hentry as [-> Hv]. rewrite Hv. reflexivity.
    + rewrite Hentry. reflexivity.
  - rewrite (Hout Ho). cbn [bind]. rewrite (tested_samples_none m Hm Ho). reflexivity.
Qed.

End TableOfAnalysis.

(** X10.  Fed with the t-test results of [analyze_all_metrics] on a
    frame with distinct column names and a [Group] column, the loop
    that prepares the report table returns one row for each key metric
    that is a numeric column with two values at least in both groups, in
    the order of the key metrics, written from that metric's report;
    a key metric that is absent, not numeric or short of data has no
    row. *)
Theorem table_rows_of_analysis :
  forall (format_fixed : nat -> float -> string)
         (student_sf : R -> R -> R) (norm_sf : R -> R)
         (df : DataFrame) (alpha : R) (g : Series) (r : results),
    NoDup (map fst df) ->
    getitem df "Group" = Returns g ->
    analyze_all_metrics student_sf norm_sf df alpha = Returns r ->
    table_rows format_fixed (t_test_results r)
    = Returns (flat_map
                 (fun m => match tested_samples df m with
                           | Some (a, b) =>
                               [table_row format_fixed m
                                  (t_test_report student_sf norm_sf m alpha a b)]
                           | None => []
                           end) key_metrics).
Proof.
  intros format_fixed student_sf norm_sf df alpha g r Hnames Hg Hr.
  unfold analyze_all_metrics in Hr. rewrite metrics_filter in Hr.
  destruct (analyze_loop_appends student_sf norm_sf df alpha g Hg
              (expected_metrics df)) with (acc := mkResults [] [])
    as [ts [mws [E [Fts _]]]].
  - apply Forall_forall. intros m Hm.
    destruct (expected_metrics_in df m Hm) as [col [Hin Hnum]].
    exists col. split; [apply getitem_in; assumption|assumption].
  - rewrite E in Hr. injection Hr as <-. cbn [t_test_results app].
    apply (table_rows_of_analyzed format_fixed student_sf norm_sf df alpha g
             Hnames Hg ts key_metrics Fts).
    apply Forall_forall. intros m Hm. apply key_metrics_not_id, Hm.
Qed.

Lemma report_frame_names : NoDup (map fst report_frame).
Proof.
  repeat constructor; simpl; intros H; decompose [or] H; try discriminate; assumption.
Qed.

Lemma table_rows_of_analysis_witness :
  exists r,
    analyze_all_metrics student_sf_two norm_sf_at_zero report_frame (5 / 100)
    = Returns r
    /\ table_rows format_blank (t_test_results r)
       = Returns [table_row format_blank "Early_Exit_Rate"
                    (t_test_report student_sf_two norm_sf_at_zero "Early_Exit_Rate"
                       (5 / 100) [10; 12] [20; 22])].
Proof.
  eexists. split; [reflexivity|].
  exact (table_rows_of_analysis format_blank student_sf_two norm_sf_at_zero
           report_frame (5 / 100) [Text "A"; Text "A"; Text "B"; Text "B"] _
           report_frame_names eq_refl eq_refl).
Defined.

(** ** Loading the data *)

Lemma getitem_setitem_other (df : DataFrame) (name other : string) (s : Series) :
  name <> other -> getitem (setitem df name s) other = getitem df other.
Proof.
  intros N. induction df as [|[n c] df IH]; simpl.
  - apply String.eqb_neq in N. rewrite N. reflexivity.
  - destruct (String.eqb_spec n name) as [->|Nn]; simpl.
    + apply String.eqb_neq in N. rewrite N. reflexivity.
    + rewrite IH. reflexivity.
Qed.

Lemma apply_Forall2 (f : cell -> outcome value) (col tot : Series) :
  apply f col = Returns tot ->
  Forall2 (fun c t => exists v, f c = Returns v /\ t = cell_of_value v) col tot.
Proof.
  revert tot. induction col as [|c col IH]; simpl; intros tot H.
  - injection H as <-. constructor.
  - destruct (f c) as [v|] eqn:E; simpl in H; [|discriminate].
    destruct (apply f col) as [rest|]; simpl in H; [|discriminate].
    injection H as <-. constructor; [exists v; auto|apply IH; reflexivity].
Qed.

Section LoadFacts.

Variable json_loads : string -> option pyobj.

Lemma section_value_loadable (section : string) (c : cell) (v : option pyobj) :
  section_value json_loads section c = inl v -> loadable json_loads c.
Proof.
  unfold section_value, loadable. destruct c as [x|s|]; intros H.
  - left. intros s. discriminate.
  - right. exists s.
    destruct (json_loads (replace single_quote double_quote s)) as [obj|];
      [|discriminate].
    destruct obj; try discriminate. exists items. split; reflexivity.
  - left. intros s. discriminate.
Qed.

Lemma section_column_loadable (section : string) (col : Series)
  (vs : list (option pyobj)) :
  section_column json_loads section col = inl vs ->
  Forall (loadable json_loads) col.
Proof.
  revert vs. induction col as [|c col IH]; simpl; intros vs H; [constructor|].
  destruct (section_value json_loads section c) as [v|] eqn:E; simpl in H;
    [|discriminate].
  destruct (section_column json_loads section col) as [rest|]; simpl in H;
    [|discriminate].
  constructor; [apply (section_value_loadable section c v E)|apply (IH rest eq_refl)].
Qed.

Lemma parse_loadable (c : cell) (v : value) :
  loadable json_loads c ->
  parse_time_spent json_loads c = Returns v ->
  (cell_of_value v = NA <-> forall s, c <> Text s).
Proof.
  intros [Hno|[s [items [-> E]]]] Hv.
  - rewrite (parse_not_text json_loads c Hno) in Hv. injection Hv as <-.
    split; [intros _; exact Hno|reflexivity].
  - unfold parse_time_spent, parse_time_spent_try in Hv. simpl in Hv.
    rewrite E in Hv. simpl in Hv.
    destruct (py_sum (NInt 0) (map snd items)) as [n|e] eqn:Es; simpl in Hv.
    + injection Hv as <-. rewrite cell_of_number. split; [discriminate|].
      intros H. exfalso. apply (H s). reflexivity.
    + rewrite (py_sum_error _ _ _ Es) in Hv. discriminate.
Qed.

End LoadFacts.

(** C8.  A breakdown that does not decode yields no NaN total.
    [parse_time_spent] alone maps such a text to NaN, the total the
    claim describes; but [load_data] then reads the sections of the same
    cell with [json.loads] outside any [try] (lines 44-48), so on a frame
    with such a row it raises and there is no frame for the runners to
    partition. *)
Theorem C8_unparsable_breakdown_raises :
  forall (json_loads : string -> option pyobj)
         (df : DataFrame) (col : Series) (i : nat) (s : string),
    getitem df "Time_Spent" = Returns col ->
    nth_error col i = Some (Text s) ->
    json_loads (replace single_quote double_quote s) = None ->
    parse_time_spent json_loads (Text s) = Returns (VFloat NaN)
    /\ exists e, load_data json_loads df = inr e.
Proof.
  intros json_loads df col i s Hcol Hi E.
  split; [apply parse_decode_error, E|].
  unfold load_data, add_total_time_spent. rewrite Hcol. cbn [bind].
  destruct (apply (parse_time_spent json_loads) col) as [tot|e]; cbn [bind];
    [|destruct e; eauto].
  rewrite getitem_setitem_other by discriminate. rewrite Hcol.
  destruct (section_columns json_loads sections col) as [cols|e] eqn:Es;
    [|destruct e; eauto].
  exfalso. unfold sections in Es. cbn [section_columns] in Es.
  destruct (section_column json_loads "data_upload" col) as [vs|] eqn:E1;
    [|discriminate].
  pose proof (section_column_loadable json_loads _ _ _ E1) as Hload.
  rewrite Forall_forall in Hload.
  destruct (Hload (Text s) (nth_error_In _ _ Hi)) as [Hno|[s' [items [Hs E']]]].
  - apply (Hno s). reflexivity.
  - injection Hs as <-. rewrite E in E'. discriminate.
Qed.

(** The frame of breakdowns has the row [oops]: its total alone would be
    NaN, and loading the frame raises. *)
Lemma C8_unparsable_breakdown_witness :
  parse_time_spent sample_json_loads (Text "oops") = Returns (VFloat NaN)
  /\ exists e, load_data sample_json_loads breakdown_frame = inr e.
Proof.
  apply (C8_unparsable_breakdown_raises sample_json_loads breakdown_frame
           [Text "{'data_upload': 3, 'data_cleaning': 4}";
            Text "{}"; NA; Text "oops"; Text "{}"] 3 "oops"); reflexivity.
Defined.

Example breakdown_frame_load :
  load_data sample_json_loads breakdown_frame = inr LoadJSONDecodeError.
Proof. reflexivity. Qed.

(** X11.  When [load_data] returns, every cell of [Time_Spent] is either
    no text or a text that decodes to a dictionary: a text that does
    not decode, which [parse_time_spent] alone turns into NaN, makes the
    extraction of the sections raise.  So in the frame returned the
    total of a row is missing exactly when the row's breakdown is not a
    text.  This is for breakdowns whose numbers are finite, the numbers
    of [pyobj]: [json.loads] also reads [NaN] and [Infinity], and a
    dictionary holding them can total NaN. *)
Theorem load_data_returns_on_dictionaries :
  forall (json_loads : string -> option pyobj)
         (df : DataFrame) (out : loaded) (col : Series),
    load_data json_loads df = inl out ->
    getitem df "Time_Spent" = Returns col ->
    Forall (loadable json_loads) col
    /\ exists tot,
         getitem (loaded_frame out) "Total_Time_Spent" = Returns tot
         /\ Forall2 (fun c t => t = NA <-> forall s, c <> Text s) col tot.
Proof.
  intros json_loads df out col H Hcol. unfold load_data in H.
  unfold add_total_time_spent in H. rewrite Hcol in H. cbn [bind] in H.
  destruct (apply (parse_time_spent json_loads) col) as [tot|e] eqn:Ea;
    cbn [bind] in H; [|destruct e; discriminate].
  rewrite getitem_setitem_other in H by discriminate. rewrite Hcol in H.
  destruct (section_columns json_loads sections col) as [cols|e] eqn:Es;
    [|destruct e; discriminate].
  injection H as <-. cbn [loaded_frame].
  assert (Hload : Forall (loadable json_loads) col).
  { unfold sections in Es. cbn [section_columns] in Es.
    destruct (section_column json_loads "data_upload" col) as [vs|] eqn:E1;
      [|discriminate].
    apply (section_column_loadable json_loads _ _ _ E1). }
  split; [exact Hload|]. exists tot. split; [apply getitem_setitem|].
  pose proof (apply_Forall2 _ _ _ Ea) as F. clear Ea Es Hcol.
  induction F as [|c t col tot [v [Hv ->]] _ IH]; [constructor|].
  inversion Hload as [|? ? Hc Hrest]; subst.
  constructor; [apply (parse_loadable json_loads c v Hc Hv)|apply IH, Hrest].
Qed.

Lemma load_data_witness :
  Forall (loadable sample_json_loads)
    [Text "{'data_upload': 3, 'data_cleaning': 4}"; Text "{}"; NA]
  /\ exists tot,
       getitem (setitem loadable_frame "Total_Time_Spent" [Num 7; Num 0; NA])
         "Total_Time_Spent" = Returns tot
       /\ Forall2 (fun c t => t = NA <-> forall s, c <> Text s)
            [Text "{'data_upload': 3, 'data_cleaning': 4}"; Text "{}"; NA] tot.
Proof.
  apply (load_data_returns_on_dictionaries sample_json_loads loadable_frame
           (mkLoaded (setitem loadable_frame "Total_Time_Spent" [Num 7; Num 0; NA])
              [("Time_data_upload", [Some (PInt 3); None; None]);
               ("Time_data_cleaning", [Some (PInt 4); None; None]);
               ("Time_feature_engineering", [None; None; None]);
               ("Time_exploratory_analysis", [None; None; None])])); reflexivity.
Defined.

Lemma dict_get_absent (items : list (string * pyobj)) (key : string) :
  ~ In key (map fst items) -> dict_get items key = None.
Proof.
  induction items as [|[k v] items IH]; simpl; [reflexivity|].
  intros H. destruct (String.eqb_spec k key) as [->|_]; [tauto|].
  apply IH. tauto.
Qed.

Lemma sum_one_key (L : list string) (k : string) (x : R) (h : string -> R) :
  NoDup L -> In k L -> h k = 0 ->
  sum (map (fun sec => if String.eqb k sec then x else h sec) L)
  = x + sum (map h L).
Proof.
  intros Hnd. induction Hnd as [|a L Ha Hnd IH]; simpl; [tauto|].
  intros [->|Hin] Hk.
  - rewrite String.eqb_refl, Hk.
    assert (E : map (fun sec => if String.eqb k sec then x else h sec) L = map h L).
    { apply map_ext_in. intros sec Hsec.
      destruct (String.eqb_spec k sec) as [->|_]; [contradiction|reflexivity]. }
    rewrite E. lra.
  - destruct (String.eqb_spec k a) as [->|_]; [contradiction|].
    rewrite (IH Hin Hk). lra.
Qed.

Lemma sum_by_sections (L : list string) (items : list (string * pyobj)) :
  NoDup L ->
  NoDup (map fst items) ->
  incl (map fst items) L ->
  sum (map real_of_obj (map snd items)) = sum (map (section_time items) L).
Proof.
  intros HL. induction items as [|[k v] items IH]; simpl; intros Hnd Hincl.
  - clear HL Hnd Hincl. induction L as [|a L IHL]; simpl; [reflexivity|].
    rewrite <- IHL. unfold section_time. simpl. lra.
  - inversion Hnd as [|? ? Hk Hnd']; subst.
    assert (Hin : In k L) by (apply Hincl; left; reflexivity).
    assert (Hincl' : incl (map fst items) L)
      by (intros a Ha; apply Hincl; right; exact Ha).
    rewrite (IH Hnd' Hincl').
    rewrite <- (sum_one_key L k (real_of_obj v) (section_time items) HL Hin).
    + f_equal. apply map_ext. intros sec. unfold section_time. simpl.
      destruct (String.eqb k sec); reflexivity.
    + unfold section_time. rewrite (dict_get_absent items k Hk). reflexivity.
Qed.

Lemma sections_distinct : NoDup sections.
Proof.
  repeat constructor; simpl; intros H; decompose [or] H; try discriminate; assumption.
Qed.

(** X12.  For a breakdown that decodes to a dictionary of numbers whose
    keys are among the four sections, the total [parse_time_spent]
    returns is the sum of the four values [load_data] extracts for the
    row, a section the breakdown lacks (NaN in its column) counting
    for 0. *)
Theorem total_is_sum_of_sections :
  forall (json_loads : string -> option pyobj)
         (s : string) (items : list (string * pyobj)),
    json_loads (replace single_quote double_quote s) = Some (PDict items) ->
    NoDup (map fst items) ->
    incl (map fst items) sections ->
    forallb is_number_obj (map snd items) = true ->
    (forall section,
        section_value json_loads section (Text s) = inl (dict_get items section))
    /\ exists v,
         parse_time_spent json_loads (Text s) = Returns v
         /\ cell_of_value v = Num (sum (map (section_time items) sections)).
Proof.
  intros json_loads s items E Hnd Hincl Hnum. split.
  - intros section. unfold section_value. rewrite E. reflexivity.
  - destruct (parse_dict_of_numbers json_loads s items E Hnum) as [v [Hv Hc]].
    exists v. split; [exact Hv|].
    rewrite Hc, (sum_by_sections sections items sections_distinct Hnd Hincl).
    reflexivity.
Qed.

Lemma total_is_sum_of_sections_witness :
  (forall section,
      section_value sample_json_loads section
        (Text "{'data_upload': 3, 'data_cleaning': 4}")
      = inl (dict_get [("data_upload", PInt 3); ("data_cleaning", PInt 4)] section))
  /\ exists v,
       parse_time_spent sample_json_loads
         (Text "{'data_upload': 3, 'data_cleaning': 4}") = Returns v
       /\ cell_of_value v
          = Num (sum (map (section_time [("data_upload", PInt 3);
                                         ("data_cleaning", PInt 4)]) sections)).
Proof.
  apply (total_is_sum_of_sections sample_json_loads
           "{'data_upload': 3, 'data_cleaning': 4}"
           [("data_upload", PInt 3); ("data_cleaning", PInt 4)] eq_refl).
  - repeat constructor; simpl; intros H; decompose [or] H; try discriminate; assumption.
  - intros a H. simpl in H. decompose [or] H; subst; simpl; tauto.
  - reflexivity.
Defined.

(** ** The statistics of a group *)

Lemma cell_eqb_label (label : string) (c : cell) :
  cell_eqb (Text label) c = eq_label label c.
Proof. destruct c; simpl; try reflexivity. apply String.eqb_sym. Qed.

Lemma same_cell (d c : cell) :
  cell_eqb d c || (isna d && isna c) = true -> d = c.
Proof.
  destruct d as [x|s|], c as [y|t|]; simpl; try discriminate; try reflexivity.
  - destruct (Req_dec_T x y) as [->|_]; [reflexivity|discriminate].
  - destruct (String.eqb_spec s t) as [->|_]; [reflexivity|discriminate].
Qed.

Lemma unique_from_complete (s : Series) (seen : list cell) (c : cell) :
  In c s -> In c seen \/ In c (unique_from seen s).
Proof.
  revert seen. induction s as [|a s IH]; simpl; [tauto|].
  intros seen [->|Hin].
  - destruct (existsb _ seen) eqn:E.
    + left. apply existsb_exists in E as [d [Hd Hs]].
      rewrite <- (same_cell d c Hs). exact Hd.
    + right. left. reflexivity.
  - destruct (existsb _ seen).
    + apply IH, Hin.
    + destruct (IH (a :: seen) Hin) as [[->|H]|H]; simpl; auto.
Qed.

Section GroupStats.

Variables (df : DataFrame) (metric : string) (g col : Series).
Hypothesis Hnames : NoDup (map fst df).
Hypothesis Hg : getitem df "Group" = Returns g.
Hypothesis Hcol : getitem df metric = Returns col.
Hypothesis Hnum : is_number_dtype col = true.

Lemma group_stats_entry (label : string) stats cols (d : dict) :
  group_stats df = Returns stats ->
  In (Text label, cols) stats ->
  In (metric, d) cols ->
  d = column_stats (sample g col label).
Proof.
  unfold group_stats. rewrite Hg. cbn [bind]. intros H. injection H as <-.
  intros Hin Hd. apply in_map_iff in Hin as [group [E _]].
  injection E as -> <-.
  apply in_map_iff in Hd as [[n c] [E Hc]]. simpl in E. injection E as -> <-.
  apply filter_In in Hc as [Hc _].
  pose proof (getitem_in df metric c Hnames Hc) as Hc'.
  rewrite Hcol in Hc'. injection Hc' as <-.
  unfold sample. rewrite (map_ext _ _ (cell_eqb_label label)). reflexivity.
Qed.

Lemma group_stats_has_entry (label : string) stats :
  group_stats df = Returns stats ->
  In (Text label) g ->
  exists cols d, In (Text label, cols) stats /\ In (metric, d) cols.
Proof.
  unfold group_stats. rewrite Hg. cbn [bind]. intros H. injection H as <-.
  intros Hl. eexists. eexists. split.
  - apply in_map_iff. exists (Text label). split; [reflexivity|].
    destruct (unique_from_complete g [] (Text label) Hl) as [[]|H]. exact H.
  - apply in_map_iff. exists (metric, col). split; [reflexivity|].
    apply filter_In. split; [apply getitem_In, Hcol|exact Hnum].
Qed.

End GroupStats.

(** X14.  On a frame with distinct column names, [describe_dataset]
    has statistics for every label of the [Group] column and every
    numeric column, and they describe the same values as the tests:
    with two values at least in both groups, the mean and the median it
    reports for the groups A and B are the means [run_t_test] returns
    and the medians [run_mann_whitney_test] returns. *)
Theorem group_stats_agree_with_tests :
  forall (student_sf : R -> R -> R) (norm_sf : R -> R)
         (df : DataFrame) (metric : string) (alpha : R) (g col : Series)
         (stats : list (cell * list (string * dict))),
    NoDup (map fst df) ->
    getitem df "Group" = Returns g ->
    getitem df metric = Returns col ->
    is_number_dtype col = true ->
    (2 <= len (sample g col "A"))%nat ->
    (2 <= len (sample g col "B"))%nat ->
    group_stats df = Returns stats ->
    (forall label, In (Text label) g ->
       exists cols d, In (Text label, cols) stats /\ In (metric, d) cols)
    /\ (forall cols d,
          In (Text "A", cols) stats -> In (metric, d) cols ->
          field (run_t_test student_sf norm_sf df metric alpha) "group_a_mean"
          = get d "mean"
          /\ field (run_mann_whitney_test norm_sf df metric alpha) "group_a_median"
             = get d "median")
    /\ (forall cols d,
          In (Text "B", cols) stats -> In (metric, d) cols ->
          field (run_t_test student_sf norm_sf df metric alpha) "group_b_mean"
          = get d "mean"
          /\ field (run_mann_whitney_test norm_sf df metric alpha) "group_b_median"
             = get d "median").
Proof.
  intros student_sf norm_sf df metric alpha g col stats Hnames Hg Hcol Hnum Ha Hb Hs.
  assert (Ha1 : (1 <= len (sample g col "A"))%nat) by lia.
  assert (Hb1 : (1 <= len (sample g col "B"))%nat) by lia.
  rewrite (run_t_test_sufficient _ _ _ _ _ _ _ Hg Hcol Hnum Ha Hb).
  rewrite (run_mann_whitney_sufficient _ _ _ _ _ _ Hg Hcol Hnum Ha1 Hb1).
  cbn [field]. split; [|split].
  - intros label Hl.
    apply (group_stats_has_entry df metric g col Hg Hcol Hnum label stats Hs Hl).
  - intros cols d Hin Hd.
    rewrite (group_stats_entry df metric g col Hnames Hg Hcol "A" stats cols d Hs Hin Hd).
    destruct (sample g col "A") as [|x xs]; [simpl in Ha; lia|]. split; reflexivity.
  - intros cols d Hin Hd.
    rewrite (group_stats_entry df metric g col Hnames Hg Hcol "B" stats cols d Hs Hin Hd).
    destruct (sample g col "B") as [|x xs]; [simpl in Hb; lia|]. split; reflexivity.
Qed.

Lemma scenario_frame_names : NoDup (map fst scenario_frame).
Proof.
  repeat constructor; simpl; intros H; decompose [or] H; try discriminate; assumption.
Qed.

Lemma group_stats_agree_witness :
  field (run_t_test student_sf_two norm_sf_at_zero scenario_frame "Score" (5 / 100))
    "group_a_mean" = get (column_stats [10; 12]) "mean"
  /\ field (run_mann_whitney_test norm_sf_at_zero scenario_frame "Score" (5 / 100))
       "group_a_median" = get (column_stats [10; 12]) "median".
Proof.
  apply (proj1 (proj2 (group_stats_agree_with_tests student_sf_two norm_sf_at_zero
                         scenario_frame "Score" (5 / 100)
                         [Text "A"; Text "A"; Text "B"; Text "B"]
                         [Num 10; Num 12; Num 20; Num 22]
                         [(Text "A", [("Score", column_stats [10; 12])]);
                          (Text "B", [("Score", column_stats [20; 22])])]
                         scenario_frame_names
                         eq_refl eq_refl eq_refl (le_n 2) (le_n 2) eq_refl))
           [("Score", column_stats [10; 12])] (column_stats [10; 12])).
  - left. reflexivity.
  - left. reflexivity.
Defined.

(** ** Missing columns and values that are no numbers *)

Lemma getitem_raises (df : DataFrame) (name : string) (e : exn) :
  getitem df name = Raises e -> e = KeyError.
Proof.
  induction df as [|[n c] df IH]; simpl.
  - intros H. injection H as <-. reflexivity.
  - destruct (String.eqb n name); [discriminate|exact IH].
Qed.

Lemma to_numpy_raises (s : Series) (e : exn) :
  to_numpy s = Raises e -> e = TypeError.
Proof.
  induction s as [|c s IH]; simpl; [discriminate|].
  destruct c; try (intros H; injection H as <-; reflexivity).
  destruct (to_numpy s) as [xs|e']; simpl; [discriminate|].
  intros H. injection H as <-. apply IH. reflexivity.
Qed.

Lemma group_of_raises (df : DataFrame) (label metric : string) :
  (exists e, group_of df label metric = Raises e) <->
  getitem df "Group" = Raises KeyError \/ getitem df metric = Raises KeyError.
Proof.
  unfold group_of.
  destruct (getitem df "Group") as [g|e] eqn:Hg; cbn [bind].
  - destruct (getitem df metric) as [col|e] eqn:Hcol; cbn [bind].
    + split; [intros [e H]; discriminate|intros [H|H]; discriminate].
    + rewrite (getitem_raises _ _ _ Hcol). split; [auto|eauto].
  - rewrite (getitem_raises _ _ _ Hg). split; [auto|eauto].
Qed.

(** X15.  [run_t_test] and [run_mann_whitney_test] raise [KeyError]
    exactly when the frame lacks the [Group] column or the metric's
    column; the only other exception is the [TypeError] of arithmetic on
    a text, which a numeric column never causes. *)
Theorem runners_raise_on_missing_columns :
  forall (student_sf : R -> R -> R) (norm_sf : R -> R)
         (df : DataFrame) (metric : string) (alpha : R),
    (run_t_test student_sf norm_sf df metric alpha = Raises KeyError <->
     getitem df "Group" = Raises KeyError \/ getitem df metric = Raises KeyError)
    /\ (run_mann_whitney_test norm_sf df metric alpha = Raises KeyError <->
        getitem df "Group" = Raises KeyError \/ getitem df metric = Raises KeyError)
    /\ (forall col,
          getitem df metric = Returns col -> is_number_dtype col = true ->
          run_t_test student_sf norm_sf df metric alpha <> Raises TypeError
          /\ run_mann_whitney_test norm_sf df metric alpha <> Raises TypeError).
Proof.
  intros student_sf norm_sf df metric alpha.
  pose proof (group_of_raises df "A" metric) as HA.
  pose proof (group_of_raises df "B" metric) as HB.
  split; [|split].
  - unfold run_t_test.
    destruct (group_of df "A" metric) as [ga|e] eqn:Ea; cbn [bind].
    + destruct (group_of df "B" metric) as [gb|e] eqn:Eb; cbn [bind].
      * split; [|intros H; apply HA in H as [e H]; discriminate].
        destruct ((len ga <? 2)%nat || (len gb <? 2)%nat)%bool; [discriminate|].
        destruct (to_numpy ga) as [a|e] eqn:Na; cbn [bind];
          [|rewrite (to_numpy_raises _ _ Na); discriminate].
        destruct (to_numpy gb) as [b|e] eqn:Nb; cbn [bind];
          [|rewrite (to_numpy_raises _ _ Nb); discriminate].
        destruct (ttest_ind student_sf norm_sf a b). discriminate.
      * split; [intros _; apply HB; eauto|].
        intros H. apply HA in H as [e' H]. discriminate.
    + assert (E : e = KeyError).
      { unfold group_of in Ea.
        destruct (getitem df "Group") as [g|e1] eqn:Hg; cbn [bind] in Ea.
        - destruct (getitem df metric) as [col|e2] eqn:Hcol; cbn [bind] in Ea;
            [discriminate|].
          injection Ea as <-. apply (getitem_raises _ _ _ Hcol).
        - injection Ea as <-. apply (getitem_raises _ _ _ Hg). }
      subst e. split; [intros _; apply HA; eauto|reflexivity].
  - unfold run_mann_whitney_test.
    destruct (group_of df "A" metric) as [ga|e] eqn:Ea; cbn [bind].
    + destruct (group_of df "B" metric) as [gb|e] eqn:Eb; cbn [bind].
      * split; [|intros H; apply HA in H as [e H]; discriminate].
        destruct ((len ga <? 1)%nat || (len gb <? 1)%nat)%bool; [discriminate|].
        destruct (to_numpy ga) as [a|e] eqn:Na; cbn [bind];
          [|rewrite (to_numpy_raises _ _ Na); discriminate].
        destruct (to_numpy gb) as [b|e] eqn:Nb; cbn [bind];
          [|rewrite (to_numpy_raises _ _ Nb); discriminate].
        destruct (mannwhitneyu norm_sf a b). discriminate.
      * split; [intros _; apply HB; eauto|].
        intros H. apply HA in H as [e' H]. discriminate.
    + assert (E : e = KeyError).
      { unfold group_of in Ea.
        destruct (getitem df "Group") as [g|e1] eqn:Hg; cbn [bind] in Ea.
        - destruct (getitem df metric) as [col|e2] eqn:Hcol; cbn [bind] in Ea;
            [discriminate|].
          injection Ea as <-. apply (getitem_raises _ _ _ Hcol).
        - injection Ea as <-. apply (getitem_raises _ _ _ Hg). }
      subst e. split; [intros _; apply HA; eauto|reflexivity].
  - intros col Hcol Hnum.
    destruct (getitem df "Group") as [g|e] eqn:Hg.
    + destruct (runners_return student_sf norm_sf df alpha g Hg metric col Hcol Hnum)
        as [[d [Ht _]] [d' [Hm _]]].
      rewrite Ht, Hm. split; discriminate.
    + assert (Ht : run_t_test student_sf norm_sf df metric alpha = Raises e)
        by (unfold run_t_test, group_of; rewrite Hg; reflexivity).
      assert (Hm : run_mann_whitney_test norm_sf df metric alpha = Raises e)
        by (unfold run_mann_whitney_test, group_of; rewrite Hg; reflexivity).
      rewrite Ht, Hm, (getitem_raises _ _ _ Hg). split; discriminate.
Qed.

Lemma runners_raise_witness :
  run_t_test student_sf_two norm_sf_at_zero unlabelled_frame "Score" (5 / 100)
  = Raises KeyError.
Proof.
  apply (proj1 (runners_raise_on_missing_columns student_sf_two norm_sf_at_zero
                  unlabelled_frame "Score" (5 / 100))).
  left. reflexivity.
Defined.

(** X16.  Without a [Group] column [analyze_all_metrics] raises
    [KeyError] as soon as the frame has a metric to analyse (a numeric
    column other than [User_ID]); with no metric it returns two empty
    lists, [Group] column or not. *)
Theorem analyze_without_group_or_metrics :
  forall (student_sf : R -> R -> R) (norm_sf : R -> R)
         (df : DataFrame) (alpha : R),
    (expected_metrics df = [] ->
     analyze_all_metrics student_sf norm_sf df alpha = Returns (mkResults [] []))
    /\ (expected_metrics df <> [] ->
        getitem df "Group" = Raises KeyError ->
        analyze_all_metrics student_sf norm_sf df alpha = Raises KeyError).
Proof.
  intros student_sf norm_sf df alpha.
  unfold analyze_all_metrics. rewrite metrics_filter. split.
  - intros ->. reflexivity.
  - intros Hne Hg. destruct (expected_metrics df) as [|m ms]; [contradiction|].
    cbn [analyze_loop]. unfold run_t_test, group_of. rewrite Hg. reflexivity.
Qed.

Lemma analyze_without_group_witness :
  analyze_all_metrics student_sf_two norm_sf_at_zero unlabelled_frame (5 / 100)
  = Raises KeyError.
Proof.
  apply (proj2 (analyze_without_group_or_metrics student_sf_two norm_sf_at_zero
                  unlabelled_frame (5 / 100))).
  - discriminate.
  - reflexivity.
Defined.

Lemma py_add_returns_number (acc n : number) (v : pyobj) :
  py_add acc v = inl n -> is_number_obj v = true.
Proof. destruct acc, v; simpl; intros H; try discriminate; reflexivity. Qed.

Lemma py_sum_returns_numbers (vs : list pyobj) (acc n : number) :
  py_sum acc vs = inl n -> forallb is_number_obj vs = false -> False.
Proof.
  revert acc. induction vs as [|v vs IH]; simpl; intros acc H F; [discriminate|].
  destruct (py_add acc v) as [acc'|e] eqn:Ea; simpl in H; [|discriminate].
  rewrite (py_add_returns_number acc acc' v Ea) in F. simpl in F.
  apply (IH acc' H F).
Qed.

(** X17.  When the breakdown is a text that decodes to a dictionary
    holding a value that is no number, [parse_time_spent] raises: the
    error of [sum] is none of the two exceptions the function catches,
    so such a row gets no NaN total, and [load_data] stops there. *)
Theorem parse_time_spent_raises_on_non_numbers :
  forall (json_loads : string -> option pyobj)
         (s : string) (items : list (string * pyobj)),
    json_loads (replace single_quote double_quote s) = Some (PDict items) ->
    forallb is_number_obj (map snd items) = false ->
    exists e, parse_time_spent json_loads (Text s) = Raises e.
Proof.
  intros json_loads s items E F.
  unfold parse_time_spent, parse_time_spent_try. simpl. rewrite E. simpl.
  destruct (py_sum (NInt 0) (map snd items)) as [n|e] eqn:Es; simpl.
  - exfalso. apply (py_sum_returns_numbers _ _ _ Es) in F. exact F.
  - rewrite (py_sum_error _ _ _ Es). eauto.
Qed.

Lemma parse_time_spent_raises_witness :
  exists e,
    parse_time_spent labelled_json_loads (Text "{'data_upload': 'long'}") = Raises e.
Proof.
  apply (parse_time_spent_raises_on_non_numbers labelled_json_loads
           "{'data_upload': 'long'}" [("data_upload", PStr "long")]); reflexivity.
Defined.
